(** * Embeddings generator: model lifecycle, batched inference and HTTP surface

    A shallow embedding of [app/embedding_service.py], [app/models.py],
    [app/config.py] and [app/main.py].

    The pretrained-model library (sentence-transformers / torch) is external
    to the repository: it is represented by a record of oracles
    ([Library]) that say, for every call the service makes, whether the
    call raises and what it returns, and how long it takes.  The service
    itself is written in a state-and-exception monad whose state survives a
    raise, as attribute assignments of a Python object do.

    Logger calls are not modelled.  A text is a [string] that holds the UTF-8
    encoding of the Python [str]; Python's [len] counts its code points
    ([Py.strlen]), not its bytes. *)

From Stdlib Require Import ZArith List String Ascii Bool Lia DecimalString.
Import ListNotations.

Local Open Scope string_scope.
Local Open Scope list_scope.
Local Open Scope Z_scope.

(* ===================================================================== *)
(** ** Python primitives used by the source *)
(* ===================================================================== *)

Module Py.

(** [len(l)] *)
Definition len {A : Type} (l : list A) : Z := Z.of_nat (List.length l).

(** a continuation byte of UTF-8, [10xxxxxx]: a byte that does not start a
    code point *)
Definition is_continuation (c : ascii) : bool :=
  match c with
  | Ascii _ _ _ _ _ _ b6 b7 => b7 && negb b6
  end.

(** the number of code points of a UTF-8 encoded text: every code point
    starts with exactly one byte that is not a continuation byte *)
Fixpoint code_points (s : string) : nat :=
  match s with
  | EmptyString => 0%nat
  | String c rest =>
      ((if is_continuation c then 0 else 1) + code_points rest)%nat
  end.

(** [len(s)] for a [str]: its number of characters (code points) *)
Definition strlen (s : string) : Z := Z.of_nat (code_points s).

(** [str(i)] / [f"{i}"] for an [int] *)
Definition str_of_int (i : Z) : string := NilZero.string_of_int (Z.to_int i).

(** [o or d] for [o : Optional[str]] *)
Definition or_str (o : option string) (d : string) : string :=
  match o with
  | Some s => if String.eqb s "" then d else s
  | None => d
  end.

(** [o or d] for [o : Optional[int]]: [None] and [0] are falsy *)
Definition or_int (o : option Z) (d : Z) : Z :=
  match o with
  | Some i => if i =? 0 then d else i
  | None => d
  end.

(** number of elements of [range(lo, hi, step)], [step <> 0] *)
Definition range_len (lo hi step : Z) : Z :=
  if 0 <? step then
    if lo <? hi then (hi - 1 - lo) / step + 1 else 0
  else
    if hi <? lo then (lo - 1 - hi) / (- step) + 1 else 0.

(** [range(lo, hi, step)]; [None] is
    [ValueError("range() arg 3 must not be zero")] *)
Definition range (lo hi step : Z) : option (list Z) :=
  if step =? 0 then None
  else Some (map (fun k => lo + Z.of_nat k * step)
                 (seq 0 (Z.to_nat (range_len lo hi step)))).

(** a slice bound brought into [0 .. len]: negative bounds count from the
    end, everything is clamped *)
Definition clamp (i n : Z) : Z :=
  if i <? 0 then Z.max 0 (i + n) else Z.min i n.

(** [l[i:j]] *)
Definition slice {A : Type} (l : list A) (i j : Z) : list A :=
  let lo := clamp i (len l) in
  let hi := clamp j (len l) in
  firstn (Z.to_nat (hi - lo)) (skipn (Z.to_nat lo) l).

(** [not l] for a list *)
Definition is_empty {A : Type} (l : list A) : bool :=
  match l with [] => true | _ :: _ => false end.

End Py.

(* ===================================================================== *)
(** ** Exceptions *)
(* ===================================================================== *)

(** The exceptions that travel through the service and the handlers.  All of
    them are subclasses of Python's [Exception].  [LibraryError] is whatever
    the external library raised, kept by its [str()]. *)
Inductive exn : Type :=
| ValueError (msg : string)
| RuntimeError (msg : string)
| IndexError (msg : string)
| LibraryError (msg : string)
| HTTPException (status_code : Z) (detail : string).

(** [str(e)] *)
Definition str (e : exn) : string :=
  match e with
  | ValueError m | RuntimeError m | IndexError m | LibraryError m => m
  | HTTPException c d => (Py.str_of_int c ++ ": " ++ d)%string
  end.

Inductive result (A : Type) : Type :=
| Ok (a : A)
| Raise (e : exn).
Arguments Ok {A} a.
Arguments Raise {A} e.

(* ===================================================================== *)
(** ** The external model library *)
(* ===================================================================== *)

(** One entry per call into the external library, in program order. *)
Inductive Call : Type :=
| CallSentenceTransformer (model_name : string)   (* SentenceTransformer(name, ...) *)
| CallEval                                         (* model.eval() *)
| CallTo                                           (* model.to(device) *)
| CallEncode (texts : list string) (normalize : bool)  (* model.encode(...) *)
| CallGetDimension                    (* model.get_sentence_embedding_dimension() *)
| CallGcCollect                                    (* gc.collect() *)
| CallCudaEmptyCache.                              (* torch.cuda.empty_cache() *)

(** What the external library does.  [inl msg] is a raised exception with
    [str(e) = msg]. *)
Record Library : Type := {
  handle : Type;                       (* a SentenceTransformer object *)
  float : Type;                        (* a component of an embedding *)
  SentenceTransformer : string -> string + handle;
  eval : handle -> option string;      (* [Some msg]: raises *)
  has_to : handle -> bool;             (* hasattr(model, 'to') *)
  to : handle -> option string;
  encode : handle -> list string -> bool -> string + list (list float);
  has_get_sentence_embedding_dimension : handle -> bool;
  get_sentence_embedding_dimension : handle -> string + option Z;
  max_seq_length : handle -> option Z; (* [None]: attribute absent *)
  cuda_is_available : bool;            (* torch.cuda.is_available() *)
  pydantic_error : string;             (* str() of a pydantic ValidationError *)
  duration : option handle -> Call -> Z  (* wall-clock time a call takes *)
}.

(* ===================================================================== *)
(** ** app/config.py *)
(* ===================================================================== *)

Module Config.

Record Settings : Type := {
  app_name : string;
  app_version : string;
  debug : bool;
  default_model_name : string;
  model_cache_dir : string;
  max_batch_size : Z;
  max_sequence_length : Z
}.

(** the defaults of [class Settings] *)
Definition defaults : Settings := {|
  app_name := "Embeddings Generator";
  app_version := "0.1.0";
  debug := false;
  default_model_name := "sentence-transformers/all-MiniLM-L6-v2";
  model_cache_dir := "/app/models";
  max_batch_size := 32;
  max_sequence_length := 512
|}.

End Config.

(* ===================================================================== *)
(** ** Runtime: the service object, the clock and the call trace *)
(* ===================================================================== *)

Module Rt.

Section WithLibrary.
Context {L : Library}.

(** The attributes of the [EmbeddingService] singleton ([self.model],
    [self.model_name]) together with the process clock read by
    [time.time()] and the trace of calls made into the library. *)
Record State : Type := {
  model : option (handle L);
  model_name : option string;
  clock : Z;
  calls : list Call
}.

(** A computation reads and writes the state and returns or raises; the
    state a raise leaves behind is kept. *)
Definition M (A : Type) : Type := State -> result A * State.

Definition ret {A : Type} (a : A) : M A := fun s => (Ok a, s).

Definition bind {A B : Type} (m : M A) (f : A -> M B) : M B :=
  fun s =>
    match m s with
    | (Ok a, s') => f a s'
    | (Raise e, s') => (Raise e, s')
    end.

Definition raise {A : Type} (e : exn) : M A := fun s => (Raise e, s).

(** [try: m  except Exception as e: handler e] *)
Definition try_except {A : Type} (m : M A) (handler : exn -> M A) : M A :=
  fun s =>
    match m s with
    | (Ok a, s') => (Ok a, s')
    | (Raise e, s') => handler e s'
    end.

Definition get : M State := fun s => (Ok s, s).

(** [self.model = v] *)
Definition set_model (v : option (handle L)) : M unit :=
  fun s => (Ok tt, {| model := v; model_name := model_name s;
                      clock := clock s; calls := calls s |}).

(** [self.model_name = v] *)
Definition set_model_name (v : option string) : M unit :=
  fun s => (Ok tt, {| model := model s; model_name := v;
                      clock := clock s; calls := calls s |}).

(** [time.time()] *)
Definition time_time : M Z := fun s => (Ok (clock s), s).

(** the state after a library call [c] on object [h] has run *)
Definition after_call (h : option (handle L)) (c : Call) (s : State) : State :=
  {| model := model s; model_name := model_name s;
     clock := clock s + duration L h c; calls := calls s ++ [c] |}.

(** A call into the library: it is recorded, takes its time, and returns
    or raises what the library says. *)
Definition extern {A : Type} (h : option (handle L)) (c : Call)
  (outcome : string + A) : M A :=
  fun s =>
    match outcome with
    | inr a => (Ok a, after_call h c s)
    | inl msg => (Raise (LibraryError msg), after_call h c s)
    end.

(** a call that returns nothing: [Some msg] raises *)
Definition outcome_of (o : option string) : string + unit :=
  match o with
  | Some msg => inl msg
  | None => inr tt
  end.

End WithLibrary.

Arguments State : clear implicits.
Arguments M : clear implicits.

Declare Scope py_scope.
Delimit Scope py_scope with py.
Notation "x <- m ;; k" := (bind m (fun x => k))
  (at level 61, m at next level, right associativity) : py_scope.
Notation "m ;; k" := (bind m (fun _ => k))
  (at level 61, right associativity) : py_scope.

End Rt.

Import Rt.
Local Open Scope py_scope.

(** [a == b] for two [Optional[str]] *)
Definition opt_str_eqb (a b : option string) : bool :=
  match a, b with
  | Some x, Some y => String.eqb x y
  | None, None => true
  | _, _ => false
  end.

(** [v is not None] *)
Definition is_not_None {A : Type} (v : option A) : bool :=
  match v with Some _ => true | None => false end.

(* ===================================================================== *)
(** ** app/embedding_service.py *)
(* ===================================================================== *)

Module EmbeddingService.

Section Service.
Context {L : Library} (settings : Config.Settings).

Local Abbreviation Embeddings := (list (list (float L))).
Local Abbreviation M := (Rt.M L).

(** the initial service object: [self.model = None], [self.model_name = None] *)
Definition init (t0 : Z) : State L :=
  {| model := None; model_name := None; clock := t0; calls := [] |}.

(** [def load_model(self, model_name=None)]; its two clock readings feed a
    log line only *)
Definition load_model (model_name : option string) : M unit :=
  let model_name := Py.or_str model_name (Config.default_model_name settings) in
  s <- get ;;
  if opt_str_eqb (Rt.model_name s) (Some model_name) && is_not_None (model s)
  then ret tt
  else
    try_except
      (h <- extern None (CallSentenceTransformer model_name)
                   (SentenceTransformer L model_name) ;;
       set_model (Some h) ;;
       extern (Some h) CallEval (outcome_of (eval L h)) ;;
       (if has_to L h then extern (Some h) CallTo (outcome_of (to L h))
        else ret tt) ;;
       set_model_name (Some model_name))
      (fun e => raise (RuntimeError
         ("Failed to load model " ++ model_name ++ ": " ++ str e)%string)).

(** the body of [for i in range(0, len(texts), batch_size)], run over the
    indices [idx] that the range yields, with [all_embeddings] as [acc] *)
Fixpoint batch_loop (h : handle L) (texts : list string) (normalize : bool)
  (batch_size : Z) (idx : list Z) (acc : Embeddings) : M Embeddings :=
  match idx with
  | [] => ret acc
  | i :: rest =>
      let batch_texts := Py.slice texts i (i + batch_size) in
      batch_embeddings <- extern (Some h) (CallEncode batch_texts normalize)
                                 (encode L h batch_texts normalize) ;;
      batch_loop h texts normalize batch_size rest (acc ++ batch_embeddings)
  end.

(** [def generate_embeddings(self, texts, model_name=None, normalize=True,
    batch_size=None)] *)
Definition generate_embeddings (texts : list string) (model_name : option string)
  (normalize : bool) (batch_size : option Z) : M (Embeddings * Z) :=
  if Py.is_empty texts then raise (ValueError "Texts list cannot be empty")
  else
    load_model model_name ;;
    s <- get ;;
    match model s with
    | None => raise (RuntimeError "Model is not loaded")
    | Some h =>
        let batch_size := Py.or_int batch_size (Config.max_batch_size settings) in
        try_except
          (start_time <- time_time ;;
           idx <- match Py.range 0 (Py.len texts) batch_size with
                  | Some idx => ret idx
                  | None => raise (ValueError "range() arg 3 must not be zero")
                  end ;;
           all_embeddings <- batch_loop h texts normalize batch_size idx [] ;;
           end_time <- time_time ;;
           ret (all_embeddings, end_time - start_time))
          (fun e => raise (RuntimeError
             ("Failed to generate embeddings: " ++ str e)%string))
    end.

(** the [dict] returned by [get_model_info] *)
Record InfoDict : Type := {
  d_model_name : option string;
  d_model_type : option string;
  d_max_sequence_length : option Z;
  d_embedding_dimensions : option Z;
  d_is_loaded : bool
}.

(** [def get_model_info(self)] *)
Definition get_model_info : M InfoDict :=
  s <- get ;;
  match model s with
  | None =>
      ret {| d_model_name := None; d_model_type := None;
             d_max_sequence_length := None; d_embedding_dimensions := None;
             d_is_loaded := false |}
  | Some h =>
      try_except
        (dimensions <-
           (if has_get_sentence_embedding_dimension L h
            then extern (Some h) CallGetDimension
                        (get_sentence_embedding_dimension L h)
            else
              test_embedding <- extern (Some h) (CallEncode ["test"] false)
                                       (encode L h ["test"] false) ;;
              match test_embedding with
              | v :: _ => ret (Some (Py.len v))
              | [] => raise (IndexError "index 0 is out of bounds")
              end) ;;
         let max_length :=
           match max_seq_length L h with
           | Some v => v
           | None => Config.max_sequence_length settings
           end in
         s' <- get ;;
         ret {| d_model_name := Rt.model_name s';
                d_model_type := Some "sentence-transformer";
                d_max_sequence_length := Some max_length;
                d_embedding_dimensions := dimensions;
                d_is_loaded := true |})
        (fun e =>
           s' <- get ;;
           ret {| d_model_name := Rt.model_name s';
                  d_model_type := Some "sentence-transformer";
                  d_max_sequence_length := Some (Config.max_sequence_length settings);
                  d_embedding_dimensions := None;
                  d_is_loaded := false |})
  end.

(** [def is_model_loaded(self)] *)
Definition is_model_loaded : M bool :=
  s <- get ;; ret (is_not_None (model s)).

(** [def unload_model(self)] *)
Definition unload_model : M unit :=
  s <- get ;;
  if is_not_None (model s) then
    set_model None ;;
    set_model_name None ;;
    extern None CallGcCollect (inr tt) ;;
    (if cuda_is_available L then extern None CallCudaEmptyCache (inr tt)
     else ret tt)
  else ret tt.

End Service.

End EmbeddingService.

(* ===================================================================== *)
(** ** app/models.py *)
(* ===================================================================== *)

Module Models.

(** the JSON body of a POST /embeddings before validation; an absent
    optional field is [None] *)
Record Payload : Type := {
  p_texts : list string;
  p_model_name : option string;
  p_normalize : option bool;
  p_batch_size : option Z
}.

(** [class EmbeddingRequest(BaseModel)] *)
Record EmbeddingRequest : Type := {
  texts : list string;          (* min_items=1, max_items=100 *)
  model_name : option string;   (* default=None *)
  normalize : bool;             (* default=True *)
  batch_size : option Z         (* default=None *)
}.

(** validation of the request model: the [Field] constraints and defaults;
    [None] is a pydantic validation failure *)
Definition EmbeddingRequest_validate (p : Payload) : option EmbeddingRequest :=
  if (1 <=? Py.len (p_texts p)) && (Py.len (p_texts p) <=? 100) then
    Some {| texts := p_texts p;
            model_name := p_model_name p;
            normalize := match p_normalize p with Some b => b | None => true end;
            batch_size := p_batch_size p |}
  else None.

Section Responses.
Context {L : Library}.

(** [class EmbeddingResponse(BaseModel)] *)
Record EmbeddingResponse : Type := {
  embeddings : list (list (float L));
  r_model_name : string;
  dimensions : Z;
  processing_time : Z;
  total_texts : Z
}.

(** [class ModelInfo(BaseModel)] *)
Record ModelInfo : Type := {
  i_model_name : string;
  i_model_type : string;
  i_max_sequence_length : Z;
  i_embedding_dimensions : Z;
  i_is_loaded : bool
}.

(** [class ErrorResponse(BaseModel)] *)
Record ErrorResponse : Type := {
  error : string;
  e_detail : option string;
  e_status_code : Z
}.

(** [EmbeddingResponse(embeddings=..., model_name=..., dimensions=..., ...)]:
    [model_name] and [dimensions] are required and not optional, a [None]
    fails validation *)
Definition make_EmbeddingResponse (embs : list (list (float L)))
  (name : option string) (dims : option Z) (time : Z) (total : Z)
  : M L EmbeddingResponse :=
  match name, dims with
  | Some n, Some d =>
      ret {| embeddings := embs; r_model_name := n; dimensions := d;
             processing_time := time; total_texts := total |}
  | _, _ => raise (LibraryError (pydantic_error L))
  end.

(** [ModelInfo] built from the keys of the [model_info] dict; every field
    is required, a [None] fails validation *)
Definition make_ModelInfo (d : EmbeddingService.InfoDict) : M L ModelInfo :=
  match EmbeddingService.d_model_name d, EmbeddingService.d_model_type d,
        EmbeddingService.d_max_sequence_length d,
        EmbeddingService.d_embedding_dimensions d with
  | Some n, Some t, Some m, Some k =>
      ret {| i_model_name := n; i_model_type := t; i_max_sequence_length := m;
             i_embedding_dimensions := k;
             i_is_loaded := EmbeddingService.d_is_loaded d |}
  | _, _, _, _ => raise (LibraryError (pydantic_error L))
  end.

End Responses.

Arguments EmbeddingResponse : clear implicits.

End Models.

(* ===================================================================== *)
(** ** app/main.py *)
(* ===================================================================== *)

Module Main.

Section App.
Context {L : Library} (settings : Config.Settings).

Local Abbreviation M := (Rt.M L).

(** what a route sends back *)
Inductive Body : Type :=
| JsonEmbeddings (r : Models.EmbeddingResponse L)
| JsonModelInfo (i : Models.ModelInfo)
| JsonMessage (message : string)
| JsonDetail (detail : string)          (* body of an HTTPException *)
| JsonValidation                        (* body of a request validation failure *)
| JsonError (e : Models.ErrorResponse).

Record Response : Type := {
  status_code : Z;
  body : Body
}.

(** [try: m  except HTTPException: raise
             except Exception as e: raise HTTPException(500, detail=str(e))] *)
Definition http_guard {A : Type} (m : M A) : M A :=
  try_except m
    (fun e =>
       match e with
       | HTTPException _ _ => raise e
       | _ => raise (HTTPException 500 (str e))
       end).

(** [@app.get("/model/info")] *)
Definition get_model_info : M Body :=
  http_guard
    (model_info <- EmbeddingService.get_model_info settings ;;
     if negb (EmbeddingService.d_is_loaded model_info) then
       raise (HTTPException 503
         "No model is currently loaded. Model will be loaded on first embedding request.")
     else
       i <- Models.make_ModelInfo model_info ;;
       ret (JsonModelInfo i)).

(** [for i, text in enumerate(request.texts): if len(text) > max: raise ...],
    from index [i] on *)
Fixpoint check_text_lengths (i : Z) (texts : list string) : M unit :=
  match texts with
  | [] => ret tt
  | text :: rest =>
      if Config.max_sequence_length settings <? Py.strlen text then
        raise (HTTPException 400
          ("Text at index " ++ Py.str_of_int i ++ " exceeds maximum length of "
           ++ Py.str_of_int (Config.max_sequence_length settings)
           ++ " characters")%string)
      else check_text_lengths (i + 1) rest
  end.

(** [@app.post("/embeddings")] *)
Definition generate_embeddings (request : Models.EmbeddingRequest) : M Body :=
  http_guard
    (check_text_lengths 0 (Models.texts request) ;;
     r <- EmbeddingService.generate_embeddings settings
            (Models.texts request) (Models.model_name request)
            (Models.normalize request) (Models.batch_size request) ;;
     let (embeddings, processing_time) := r in
     model_info <- EmbeddingService.get_model_info settings ;;
     resp <- Models.make_EmbeddingResponse embeddings
               (EmbeddingService.d_model_name model_info)
               (EmbeddingService.d_embedding_dimensions model_info)
               processing_time (Py.len (Models.texts request)) ;;
     ret (JsonEmbeddings resp)).

(** [@app.post("/model/load")] *)
Definition load_model (model_name : string) : M Body :=
  try_except
    (EmbeddingService.load_model settings (Some model_name) ;;
     ret (JsonMessage ("Model " ++ model_name ++ " loaded successfully")%string))
    (fun e => raise (HTTPException 500 (str e))).

(** [@app.post("/model/unload")] *)
Definition unload_model : M Body :=
  try_except
    (EmbeddingService.unload_model ;;
     ret (JsonMessage "Model unloaded successfully"))
    (fun e => raise (HTTPException 500 (str e))).

(** [@app.exception_handler(Exception)] *)
Definition global_exception_handler (exc : exn) : Response :=
  {| status_code := 500;
     body := JsonError
       {| Models.error := "Internal server error";
          Models.e_detail := if Config.debug settings then Some (str exc) else None;
          Models.e_status_code := 500 |} |}.

(** The framework around a route: a returned body is sent with 200, an
    [HTTPException] with its own status code, anything else goes to the
    global handler. *)
Definition serve (route : M Body) (s : State L) : Response * State L :=
  match route s with
  | (Ok b, s') => ({| status_code := 200; body := b |}, s')
  | (Raise (HTTPException c d), s') => ({| status_code := c; body := JsonDetail d |}, s')
  | (Raise e, s') => (global_exception_handler e, s')
  end.

(** POST /embeddings: the body is validated against [EmbeddingRequest]
    first; a failure is answered with 422 and the route is not entered. *)
Definition post_embeddings (p : Models.Payload) (s : State L) : Response * State L :=
  match Models.EmbeddingRequest_validate p with
  | Some request => serve (generate_embeddings request) s
  | None => ({| status_code := 422; body := JsonValidation |}, s)
  end.

(** GET /model/info *)
Definition get_model_info_route : State L -> Response * State L :=
  serve get_model_info.

(** POST /model/load?model_name=...: the query parameter is required *)
Definition post_model_load (model_name : option string) (s : State L)
  : Response * State L :=
  match model_name with
  | Some n => serve (load_model n) s
  | None => ({| status_code := 422; body := JsonValidation |}, s)
  end.

(** POST /model/unload *)
Definition post_model_unload : State L -> Response * State L :=
  serve unload_model.

End App.

Arguments Response : clear implicits.
Arguments Body : clear implicits.

End Main.

(* ===================================================================== *)
(** ** Vocabulary of the statements *)
(* ===================================================================== *)

Section Vocabulary.
Context {L : Library}.

(** the argument of the inference call of the iteration at index [i]:
    [texts[i:i + batch_size]] *)
Definition batch_at (texts : list string) (batch_size i : Z) : list string :=
  Py.slice texts i (i + batch_size).

(** the chunks the loop of [generate_embeddings] walks through, in order;
    [None] when [range] refuses the step *)
Definition batches (texts : list string) (batch_size : Z)
  : option (list (list string)) :=
  match Py.range 0 (Py.len texts) batch_size with
  | Some idx => Some (map (batch_at texts batch_size) idx)
  | None => None
  end.

(** what the library returns for a chunk, nothing if it raises *)
Definition encoded (h : handle L) (normalize : bool) (chunk : list string)
  : list (list (float L)) :=
  match encode L h chunk normalize with
  | inr vs => vs
  | inl _ => []
  end.

(** the inference call of the iteration at index [i] *)
Definition encode_call (texts : list string) (batch_size : Z) (normalize : bool)
  (i : Z) : Call :=
  CallEncode (batch_at texts batch_size i) normalize.

(** the library encodes the chunk at index [i] *)
Definition succeeds (h : handle L) (texts : list string) (batch_size : Z)
  (normalize : bool) (i : Z) : Prop :=
  exists vs, encode L h (batch_at texts batch_size i) normalize = inr vs.

(** the library raises [msg] on the chunk at index [i] *)
Definition fails_with (h : handle L) (texts : list string) (batch_size : Z)
  (normalize : bool) (msg : string) (i : Z) : Prop :=
  encode L h (batch_at texts batch_size i) normalize = inl msg.

(** the state after the library calls [cs] on [h] have run one after another *)
Definition run_calls (h : handle L) (cs : list Call) (s : State L) : State L :=
  fold_left (fun s c => after_call (Some h) c s) cs s.

(** total time the calls [cs] on [h] take *)
Definition total_duration (h : handle L) (cs : list Call) : Z :=
  fold_right (fun c acc => duration L (Some h) c + acc) 0 cs.

Definition is_encode (c : Call) : bool :=
  match c with CallEncode _ _ => true | _ => false end.

Definition is_load (c : Call) : bool :=
  match c with
  | CallSentenceTransformer _ | CallEval | CallTo => true
  | _ => false
  end.

(** the inference calls of a trace *)
Definition inference_calls (cs : list Call) : list Call := filter is_encode cs.

(** the fetch / initialisation calls of a trace *)
Definition load_calls (cs : list Call) : list Call := filter is_load cs.

(** the identifier a load request resolves to:
    [model_name or self.settings.default_model_name] *)
Definition resolve (settings : Config.Settings) (name : option string) : string :=
  Py.or_str name (Config.default_model_name settings).

(** the [try] statement of [load_model], entered when the early return is
    not taken *)
Definition fetch (name : string) : M L unit :=
  try_except
    (h <- extern None (CallSentenceTransformer name) (SentenceTransformer L name) ;;
     set_model (Some h) ;;
     extern (Some h) CallEval (outcome_of (eval L h)) ;;
     (if has_to L h then extern (Some h) CallTo (outcome_of (to L h))
      else ret tt) ;;
     set_model_name (Some name))
    (fun e => raise (RuntimeError
       ("Failed to load model " ++ name ++ ": " ++ str e)%string)).

(** the detail of the answer to a text that is too long *)
Definition too_long_detail (settings : Config.Settings) (i : Z) : string :=
  "Text at index " ++ Py.str_of_int i ++ " exceeds maximum length of "
  ++ Py.str_of_int (Config.max_sequence_length settings) ++ " characters".

(** fetching and initialising the model [name] fails with [cause]: the
    constructor, [eval()] or [to()] raises *)
Inductive load_fails (name : string) (cause : string) : Prop :=
| fails_in_constructor :
    SentenceTransformer L name = inl cause -> load_fails name cause
| fails_in_eval h :
    SentenceTransformer L name = inr h ->
    eval L h = Some cause -> load_fails name cause
| fails_in_to h :
    SentenceTransformer L name = inr h ->
    eval L h = None -> has_to L h = true ->
    to L h = Some cause -> load_fails name cause.

(** resolving the dimensionality of the resident model [h] fails *)
Inductive info_fails (h : handle L) : Prop :=
| accessor_raises msg :
    has_get_sentence_embedding_dimension L h = true ->
    get_sentence_embedding_dimension L h = inl msg -> info_fails h
| probe_raises msg :
    has_get_sentence_embedding_dimension L h = false ->
    encode L h ["test"] false = inl msg -> info_fails h
| probe_empty :
    has_get_sentence_embedding_dimension L h = false ->
    encode L h ["test"] false = inr [] -> info_fails h.

(** The states the service object can be in: the initial one and whatever a
    method call leaves behind, whether it returned or raised; between two
    calls time may pass. *)
Inductive reachable (settings : Config.Settings) : State L -> Prop :=
| reach_init t0 : reachable settings (EmbeddingService.init t0)
| reach_load s name :
    reachable settings s ->
    reachable settings (snd (EmbeddingService.load_model settings name s))
| reach_generate s texts name normalize batch_size :
    reachable settings s ->
    reachable settings
      (snd (EmbeddingService.generate_embeddings settings texts name
              normalize batch_size s))
| reach_info s :
    reachable settings s ->
    reachable settings (snd (EmbeddingService.get_model_info settings s))
| reach_unload s :
    reachable settings s ->
    reachable settings (snd (EmbeddingService.unload_model s))
| reach_tick s dt :
    reachable settings s ->
    reachable settings {| model := model s; model_name := Rt.model_name s;
                          clock := clock s + dt; calls := calls s |}.

End Vocabulary.

Arguments load_fails : clear implicits.
Arguments info_fails : clear implicits.

(* ===================================================================== *)
(** ** A small concrete library, for running the model *)
(* ===================================================================== *)

Module Toy.

(** A model is known by its name; ["missing"] cannot be fetched, ["broken"]
    fails in [eval()], a text ["boom"] makes inference raise.  An embedding
    of a text is its length and the normalize flag.  Fetching takes 7 units
    of time, an inference call one unit per text. *)
Definition lib : Library := {|
  handle := string;
  float := Z;
  SentenceTransformer := fun name =>
    if String.eqb name "missing" then inl "no such model" else inr name;
  eval := fun h => if String.eqb h "broken" then Some "eval failed" else None;
  has_to := fun _ => true;
  to := fun _ => None;
  encode := fun h texts normalize =>
    if existsb (String.eqb "boom") texts then inl "inference failed"
    else inr (map (fun t => [Py.strlen t; if normalize then 1 else 0]) texts);
  has_get_sentence_embedding_dimension := fun h => negb (String.eqb h "probe");
  get_sentence_embedding_dimension := fun h =>
    if String.eqb h "nodim" then inl "no dimension" else inr (Some 2);
  max_seq_length := fun _ => Some 256;
  cuda_is_available := false;
  pydantic_error := "validation error";
  duration := fun _ c =>
    match c with
    | CallSentenceTransformer _ => 7
    | CallEncode texts _ => Py.len texts
    | _ => 0
    end
|}.

Definition settings : Config.Settings := {|
  Config.app_name := "Embeddings Generator";
  Config.app_version := "0.1.0";
  Config.debug := false;
  Config.default_model_name := "mini";
  Config.model_cache_dir := "/app/models";
  Config.max_batch_size := 2;
  Config.max_sequence_length := 5
|}.

(** a fresh process *)
Definition s0 : State lib := EmbeddingService.init 100.

(** the service with model ["mini"] resident *)
Definition s_mini : State lib :=
  snd (EmbeddingService.load_model settings None s0).

Definition five : list string := ["a"; "bb"; "ccc"; "dd"; "e"].

Definition payload (texts : list string) (batch_size : option Z) : Models.Payload :=
  {| Models.p_texts := texts; Models.p_model_name := None;
     Models.p_normalize := None; Models.p_batch_size := batch_size |}.

End Toy.

(* ===================================================================== *)
(** ** app/main.py: the health route *)
(* ===================================================================== *)

Module Health.

Section App.
Context {L : Library} (settings : Config.Settings).

(** [class HealthResponse(BaseModel)] of app/models.py *)
Record HealthResponse : Type := {
  status : string;
  version : string;
  model_loaded : bool;
  uptime : Z
}.

(** [@app.get("/health")]; [app_start_time] is the clock reading taken when
    the module was imported *)
Definition health_check (app_start_time : Z) : M L HealthResponse :=
  now <- time_time ;;
  let uptime := now - app_start_time in
  model_loaded <- EmbeddingService.is_model_loaded ;;
  let status := "healthy" in
  ret {| status := status;
         version := Config.app_version settings;
         model_loaded := model_loaded;
         uptime := uptime |}.

End App.

End Health.

(* ===================================================================== *)
(** ** POST /embeddings, from the body as it arrives *)
(* ===================================================================== *)

Module Wire.

(** The body of a POST /embeddings.  [WellTyped p]: JSON whose fields have
    the types [EmbeddingRequest] declares ([texts] a list of strings,
    [model_name] a string or absent, [normalize] a boolean or absent,
    [batch_size] an integer or absent).  [IllTyped]: any other body; the
    request model refuses it like a list of the wrong size. *)
Inductive RequestBody : Type :=
| WellTyped (p : Models.Payload)
| IllTyped.

Section App.
Context {L : Library} (settings : Config.Settings).

(** POST /embeddings on a body: one that the request model refuses is
    answered with 422 and the route is not entered *)
Definition post_embeddings (b : RequestBody) (s : State L)
  : Main.Response L * State L :=
  match b with
  | WellTyped p => Main.post_embeddings settings p s
  | IllTyped =>
      ({| Main.status_code := 422; Main.body := Main.JsonValidation |}, s)
  end.

End App.

End Wire.

(* ===================================================================== *)
(** ** Further vocabulary *)
(* ===================================================================== *)

Section MoreVocabulary.
Context {L : Library}.

(** resolving the dimensionality of the resident model [h] gives [d] through
    the library call [c]: the accessor returns it, or the probe on ["test"]
    returns at least one vector, whose length it is *)
Inductive info_resolves (h : handle L) : option Z -> Call -> Prop :=
| accessor_returns d :
    has_get_sentence_embedding_dimension L h = true ->
    get_sentence_embedding_dimension L h = inr d ->
    info_resolves h d CallGetDimension
| probe_returns v vs :
    has_get_sentence_embedding_dimension L h = false ->
    encode L h ["test"] false = inr (v :: vs) ->
    info_resolves h (Some (Py.len v)) (CallEncode ["test"] false).

(** the [max_sequence_length] that [get_model_info] reports for [h]:
    [getattr(self.model, 'max_seq_length', self.settings.max_sequence_length)] *)
Definition reported_max_length (settings : Config.Settings) (h : handle L) : Z :=
  match max_seq_length L h with
  | Some v => v
  | None => Config.max_sequence_length settings
  end.

(** the library call [get_model_info] makes to find the dimensionality of
    [h]: the accessor if the object has it, a probe inference otherwise *)
Definition info_call (h : handle L) : Call :=
  if has_get_sentence_embedding_dimension L h then CallGetDimension
  else CallEncode ["test"] false.

(** fetching and initialising the model [name] goes through and gives [h] *)
Definition load_succeeds (name : string) (h : handle L) : Prop :=
  SentenceTransformer L name = inr h /\
  eval L h = None /\
  (has_to L h = true -> to L h = None).

(** the library calls of a successful fetch of [name], in order *)
Definition fetch_calls (name : string) (h : handle L) : list Call :=
  CallSentenceTransformer name :: CallEval
  :: (if has_to L h then [CallTo] else []).

(** the inference calls for the chunks [chunks] *)
Definition encode_calls (normalize : bool) (chunks : list (list string))
  : list Call :=
  map (fun c => CallEncode c normalize) chunks.

(** the library encodes every chunk of [chunks] *)
Definition all_encoded (h : handle L) (normalize : bool)
  (chunks : list (list string)) : Prop :=
  forall c, In c chunks -> exists vs, encode L h c normalize = inr vs.

End MoreVocabulary.

Arguments info_resolves : clear implicits.
Arguments load_succeeds : clear implicits.

Module Scenario.

(** settings with a zero [max_batch_size] *)
Definition zero_batch : Config.Settings := {|
  Config.app_name := "Embeddings Generator";
  Config.app_version := "0.1.0";
  Config.debug := false;
  Config.default_model_name := "mini";
  Config.model_cache_dir := "/app/models";
  Config.max_batch_size := 0;
  Config.max_sequence_length := 5
|}.

(** the service after a load of ["broken"] on top of ["mini"]: [eval()]
    raised *)
Definition s_broken : State Toy.lib :=
  snd (EmbeddingService.load_model Toy.settings (Some "broken") Toy.s_mini).

(** the service with ["nodim"] resident, whose accessor raises *)
Definition s_nodim : State Toy.lib :=
  snd (EmbeddingService.load_model Toy.settings (Some "nodim") Toy.s0).

(** the service with ["probe"] resident, which has no accessor *)
Definition s_probe : State Toy.lib :=
  snd (EmbeddingService.load_model Toy.settings (Some "probe") Toy.s0).

End Scenario.

(* ===================================================================== *)
(** ** Running the model on concrete inputs *)
(* ===================================================================== *)

Example range_5_2 : Py.range 0 5 2 = Some [0; 2; 4].
Proof. reflexivity. Qed.

Example range_negative_step : Py.range 0 5 (-1) = Some [].
Proof. reflexivity. Qed.

Example range_zero_step : Py.range 0 5 0 = None.
Proof. reflexivity. Qed.

Example slice_tail : Py.slice Toy.five 4 6 = ["e"].
Proof. reflexivity. Qed.

Example strlen_counts_characters :
  Py.strlen "ééé" = 3 /\ String.length "ééé" = 6%nat /\ Py.strlen "naïve €" = 7.
Proof. repeat split. Qed.

Example accented_text_within_limit :
  Main.status_code
    (fst (Main.post_embeddings Toy.settings (Toy.payload ["ééé"] None) Toy.s0))
  = 200.
Proof. reflexivity. Qed.

Example batches_5_2 :
  batches Toy.five 2 = Some [["a"; "bb"]; ["ccc"; "dd"]; ["e"]].
Proof. reflexivity. Qed.

Example generate_5_2 :
  EmbeddingService.generate_embeddings Toy.settings Toy.five None true (Some 2) Toy.s0
  = (Ok ([[1; 1]; [2; 1]; [3; 1]; [2; 1]; [1; 1]], 5),
     @Build_State Toy.lib (Some "mini") (Some "mini") 112
       [CallSentenceTransformer "mini"; CallEval; CallTo;
        CallEncode ["a"; "bb"] true; CallEncode ["ccc"; "dd"] true;
        CallEncode ["e"] true]).
Proof. reflexivity. Qed.

Example generate_zero_step :
  fst (EmbeddingService.generate_embeddings
         {| Config.app_name := ""; Config.app_version := ""; Config.debug := false;
            Config.default_model_name := "mini"; Config.model_cache_dir := "";
            Config.max_batch_size := 0; Config.max_sequence_length := 5 |}
         Toy.five None true None Toy.s0)
  = Raise (RuntimeError
      "Failed to generate embeddings: range() arg 3 must not be zero").
Proof. reflexivity. Qed.

Example info_after_load :
  fst (Main.get_model_info_route Toy.settings Toy.s_mini)
  = {| Main.status_code := 200;
       Main.body := Main.JsonModelInfo
         {| Models.i_model_name := "mini";
            Models.i_model_type := "sentence-transformer";
            Models.i_max_sequence_length := 256;
            Models.i_embedding_dimensions := 2;
            Models.i_is_loaded := true |} |}.
Proof. reflexivity. Qed.

(* ===================================================================== *)
(** ** Ranges and slices *)
(* ===================================================================== *)

Section RangeSlice.
Context {A : Type}.

Lemma firstn_plus (a b : nat) (l : list A) :
  firstn (a + b) l = firstn a l ++ firstn b (skipn a l).
Proof.
  revert l. induction a as [|a IH]; intros l; simpl.
  - reflexivity.
  - destruct l as [|x l]; simpl.
    + now rewrite firstn_nil.
    + now rewrite IH.
Qed.

(** a slice of positive width that starts at a non-negative index is the
    next [b] elements from there on *)
Lemma slice_chunk (l : list A) (i b : Z) :
  0 <= i -> 0 < b ->
  Py.slice l i (i + b) = firstn (Z.to_nat b) (skipn (Z.to_nat i) l).
Proof.
  intros Hi Hb. unfold Py.slice, Py.clamp, Py.len.
  destruct (Z.ltb_spec i 0); [lia|].
  destruct (Z.ltb_spec (i + b) 0); [lia|].
  set (n := Z.of_nat (List.length l)).
  destruct (Z.le_gt_cases n i) as [Hle|Hgt].
  - rewrite (Z.min_r i n), (Z.min_r (i + b) n) by lia.
    rewrite Z.sub_diag. simpl.
    rewrite (skipn_all2 (n := Z.to_nat i)) by (subst n; lia).
    now rewrite firstn_nil.
  - rewrite (Z.min_l i n) by lia.
    assert (Hlen : List.length (skipn (Z.to_nat i) l) = Z.to_nat (n - i)).
    { rewrite length_skipn. subst n. lia. }
    destruct (Z.le_gt_cases (i + b) n) as [Hle'|Hgt'].
    + rewrite (Z.min_l (i + b) n) by lia. f_equal. lia.
    + rewrite (Z.min_r (i + b) n) by lia.
      rewrite !firstn_all2; try reflexivity; rewrite Hlen; lia.
Qed.

Lemma concat_chunks (b : nat) (l : list A) (c : nat) :
  List.concat (map (fun k => firstn b (skipn (k * b)%nat l)) (seq 0 c))
  = firstn (c * b)%nat l.
Proof.
  induction c as [|c IH].
  - reflexivity.
  - rewrite seq_S, map_app, concat_app, IH. simpl.
    rewrite app_nil_r, (Nat.add_comm b (c * b)%nat).
    symmetry. apply firstn_plus.
Qed.

End RangeSlice.

(** [range(0, n, b)] with a positive step has [ceil(n / b)] elements *)
Lemma range_len_ceil (n b : Z) :
  0 < b -> 0 < n ->
  b * (Py.range_len 0 n b - 1) < n <= b * Py.range_len 0 n b.
Proof.
  intros Hb Hn. unfold Py.range_len.
  destruct (Z.ltb_spec 0 b); [|lia].
  destruct (Z.ltb_spec 0 n); [|lia].
  replace (n - 1 - 0) with (n - 1) by lia.
  pose proof (Z.div_mod (n - 1) b ltac:(lia)) as Hdm.
  pose proof (Z.mod_pos_bound (n - 1) b Hb) as Hmod.
  nia.
Qed.

(** a negative step from [0] up to a length yields nothing *)
Lemma range_negative_step_empty (n b : Z) :
  0 <= n -> b < 0 -> Py.range 0 n b = Some [].
Proof.
  intros Hn Hb. unfold Py.range, Py.range_len.
  destruct (Z.eqb_spec b 0); [lia|].
  destruct (Z.ltb_spec 0 b); [lia|].
  destruct (Z.ltb_spec n 0); [lia|]. reflexivity.
Qed.

(** the chunks of a positive batch size, written with [firstn] and [skipn] *)
Lemma batches_positive (texts : list string) (b : Z) :
  0 < b ->
  batches texts b =
  Some (map (fun k => firstn (Z.to_nat b) (skipn (k * Z.to_nat b)%nat texts))
            (seq 0 (Z.to_nat (Py.range_len 0 (Py.len texts) b)))).
Proof.
  intros Hb. unfold batches, Py.range.
  destruct (Z.eqb_spec b 0); [lia|].
  rewrite map_map. f_equal. apply map_ext. intros k.
  unfold batch_at. rewrite slice_chunk by lia.
  do 2 f_equal. lia.
Qed.

(** The chunks of a non-empty list under a positive batch size: a partition
    of the list into [ceil(n / b)] non-empty contiguous pieces of at most
    [b] elements. *)
Lemma batches_partition (texts : list string) (b : Z) :
  0 < b -> texts <> [] ->
  exists chunks,
    batches texts b = Some chunks /\
    List.concat chunks = texts /\
    Forall (fun c => 0 < Py.len c <= b) chunks /\
    b * (Py.len chunks - 1) < Py.len texts <= b * Py.len chunks.
Proof.
  intros Hb Hne.
  assert (Hn : 0 < Py.len texts).
  { unfold Py.len. destruct texts; [congruence|simpl; lia]. }
  pose proof (range_len_ceil (Py.len texts) b Hb Hn) as Hceil.
  set (cnt := Py.range_len 0 (Py.len texts) b) in *.
  eexists. split; [apply batches_positive; exact Hb|]. fold cnt.
  split; [|split].
  - rewrite concat_chunks. apply firstn_all2. unfold Py.len in *. nia.
  - apply Forall_forall. intros c Hc.
    apply in_map_iff in Hc. destruct Hc as (k & <- & Hk).
    apply in_seq in Hk. unfold Py.len in *.
    rewrite length_firstn, length_skipn. nia.
  - assert (Hcnt : Py.len (map (fun k => firstn (Z.to_nat b)
                       (skipn (k * Z.to_nat b)%nat texts))
                       (seq 0 (Z.to_nat cnt))) = cnt).
    { unfold Py.len. rewrite length_map, length_seq. lia. }
    rewrite Hcnt. exact Hceil.
Qed.

(* ===================================================================== *)
(** ** The batching loop *)
(* ===================================================================== *)

Ltac unfold_monad :=
  unfold bind, ret, raise, try_except, get, time_time, set_model,
    set_model_name, extern in *.

Section LoopFacts.
Context {L : Library}.

Lemma run_calls_trace (h : handle L) (cs : list Call) (s : State L) :
  calls (run_calls h cs s) = calls s ++ cs.
Proof.
  revert s. induction cs as [|c cs IH]; intros s; simpl.
  - now rewrite app_nil_r.
  - rewrite IH. simpl. now rewrite <- app_assoc.
Qed.

Lemma run_calls_clock (h : handle L) (cs : list Call) (s : State L) :
  clock (run_calls h cs s) = clock s + total_duration h cs.
Proof.
  revert s. induction cs as [|c cs IH]; intros s; simpl.
  - lia.
  - rewrite IH. simpl. lia.
Qed.

Variables (h : handle L) (texts : list string) (normalize : bool) (b : Z).

Local Abbreviation encode_call := (encode_call texts b normalize).
Local Abbreviation succeeds := (succeeds h texts b normalize).
Local Abbreviation fails_with := (fails_with h texts b normalize).

(** when every chunk is encoded, the loop returns the outputs in order and
    has made exactly one inference call per chunk *)
Lemma batch_loop_ok (idx : list Z) (acc : list (list (float L))) (s : State L) :
  Forall succeeds idx ->
  EmbeddingService.batch_loop h texts normalize b idx acc s =
  (Ok (acc ++ flat_map (fun i => encoded h normalize (batch_at texts b i)) idx),
   run_calls h (map encode_call idx) s).
Proof.
  intros Hall. revert acc s.
  induction Hall as [|i idx [vs Hi] _ IH]; intros acc s; simpl.
  - unfold_monad. now rewrite app_nil_r.
  - unfold bind at 1. unfold extern. fold (batch_at texts b i).
    unfold encoded at 1. rewrite Hi, IH. now rewrite <- app_assoc.
Qed.

(** a loop that returned has encoded every chunk *)
Lemma batch_loop_returned (idx : list Z) (acc embs : list (list (float L)))
  (s s2 : State L) :
  EmbeddingService.batch_loop h texts normalize b idx acc s = (Ok embs, s2) ->
  Forall succeeds idx.
Proof.
  revert acc s. induction idx as [|i idx IH]; intros acc s Hrun.
  - constructor.
  - simpl in Hrun. unfold bind at 1, extern in Hrun.
    fold (batch_at texts b i) in Hrun.
    destruct (encode L h (batch_at texts b i) normalize) as [msg|vs] eqn:Hi.
    + discriminate.
    + constructor; [now exists vs | eapply IH; exact Hrun].
Qed.

(** when some chunk cannot be encoded, the loop raises what the library
    raised for the first such chunk, and returns nothing *)
Lemma batch_loop_raises (idx : list Z) (acc : list (list (float L))) (s : State L) :
  Exists (fun i => exists msg, fails_with msg i) idx ->
  exists msg i s2,
    EmbeddingService.batch_loop h texts normalize b idx acc s
    = (Raise (LibraryError msg), s2) /\
    In i idx /\ fails_with msg i.
Proof.
  revert acc s. induction idx as [|i idx IH]; intros acc s Hex.
  - inversion Hex.
  - simpl. unfold bind at 1, extern. fold (batch_at texts b i).
    destruct (encode L h (batch_at texts b i) normalize) as [msg|vs] eqn:Hi.
    + exists msg, i. eexists. repeat split; [now left | exact Hi].
    + assert (Hrest : Exists (fun i => exists msg, fails_with msg i) idx).
      { inversion Hex as [? ? [msg Hm]|]; subst; [|assumption].
        unfold fails_with in Hm. congruence. }
      destruct (IH (acc ++ vs) (after_call (Some h) (encode_call i) s) Hrest)
        as (msg & j & s2 & Hrun & Hj & Hf).
      exists msg, j, s2. repeat split; [exact Hrun | now right | exact Hf].
Qed.

(** whatever happens, the loop leaves the resident model alone and only
    adds inference calls to the trace *)
Lemma batch_loop_frame (idx : list Z) (acc : list (list (float L))) (s : State L) :
  model (snd (EmbeddingService.batch_loop h texts normalize b idx acc s))
  = model s /\
  Rt.model_name (snd (EmbeddingService.batch_loop h texts normalize b idx acc s))
  = Rt.model_name s /\
  load_calls (calls (snd (EmbeddingService.batch_loop h texts normalize b idx acc s)))
  = load_calls (calls s).
Proof.
  revert acc s. induction idx as [|i idx IH]; intros acc s.
  - now repeat split.
  - assert (Hload : load_calls (calls (after_call (Some h) (encode_call i) s))
                    = load_calls (calls s)).
    { unfold load_calls. simpl. rewrite filter_app. simpl. apply app_nil_r. }
    cbn [EmbeddingService.batch_loop]. unfold bind, extern.
    fold (batch_at texts b i). fold (encode_call i).
    destruct (encode L h (batch_at texts b i) normalize) as [msg|vs].
    + cbn [snd]. now repeat split.
    + destruct (IH (acc ++ vs) (after_call (Some h) (encode_call i) s))
        as (-> & -> & ->). now repeat split.
Qed.

End LoopFacts.

(* ===================================================================== *)
(** ** The lifecycle manager *)
(* ===================================================================== *)

Section LifecycleFacts.
Context {L : Library} (settings : Config.Settings).

Lemma opt_str_eqb_eq (a b : option string) :
  opt_str_eqb a b = true <-> a = b.
Proof.
  destruct a as [x|], b as [y|]; simpl; split; intros H;
    try discriminate; try reflexivity.
  - apply String.eqb_eq in H. now subst.
  - injection H as ->. apply String.eqb_refl.
Qed.

Lemma resolve_idem (name : option string) :
  resolve settings (Some (resolve settings name)) = resolve settings name.
Proof.
  unfold resolve, Py.or_str.
  destruct name as [n|].
  - destruct (String.eqb_spec n "") as [->|Hn].
    + destruct (String.eqb_spec (Config.default_model_name settings) "");
        congruence.
    + destruct (String.eqb_spec n ""); congruence.
  - destruct (String.eqb_spec (Config.default_model_name settings) "");
      congruence.
Qed.

(** the early return of [load_model] *)
Lemma load_model_resident (name : option string) (s : State L) (h : handle L) :
  model s = Some h ->
  Rt.model_name s = Some (resolve settings name) ->
  EmbeddingService.load_model settings name s = (Ok tt, s).
Proof.
  intros Hm Hn. unfold EmbeddingService.load_model. fold (resolve settings name).
  unfold bind, get. rewrite Hm, Hn. simpl.
  now rewrite String.eqb_refl.
Qed.

Lemma load_model_fetches (name : option string) (s : State L) :
  opt_str_eqb (Rt.model_name s) (Some (resolve settings name)) && is_not_None (model s)
  = false ->
  EmbeddingService.load_model settings name s = fetch (resolve settings name) s.
Proof.
  intros Hne. unfold EmbeddingService.load_model. fold (resolve settings name).
  unfold bind at 1. unfold get. now rewrite Hne.
Qed.

(** what the load path does: it ends with the model resident under the
    requested name, or raises the wrapped cause of the failure *)
Lemma fetch_cases (name : string) (s : State L) :
  (exists s', fetch name s = (Ok tt, s') /\
     is_not_None (model s') = true /\ Rt.model_name s' = Some name) \/
  (exists cause s',
     fetch name s
     = (Raise (RuntimeError ("Failed to load model " ++ name ++ ": " ++ cause)%string), s')
     /\ load_fails L name cause /\ Rt.model_name s' = Rt.model_name s).
Proof.
  unfold fetch. unfold_monad.
  destruct (SentenceTransformer L name) as [msg|h] eqn:Hc.
  - right. exists msg. eexists. repeat split. now apply fails_in_constructor.
  - destruct (eval L h) as [msg|] eqn:He; simpl.
    + right. exists msg. eexists. repeat split.
      now apply fails_in_eval with h.
    + destruct (has_to L h) eqn:Ht.
      * destruct (to L h) as [msg|] eqn:Hto; simpl.
        -- right. exists msg. eexists. repeat split.
           now apply fails_in_to with h.
        -- left. eexists. repeat split.
      * left. eexists. repeat split.
Qed.

(** a failing fetch raises *)
Lemma fetch_raises (name cause : string) (s : State L) :
  load_fails L name cause ->
  exists s',
    fetch name s
    = (Raise (RuntimeError ("Failed to load model " ++ name ++ ": " ++ cause)%string), s').
Proof.
  intros Hf. unfold fetch. unfold_monad.
  destruct Hf as [Hc|h Hc He|h Hc He Ht Hto]; rewrite Hc; simpl.
  - eexists. reflexivity.
  - rewrite He. simpl. eexists. reflexivity.
  - rewrite He, Ht, Hto. simpl. eexists. reflexivity.
Qed.

(** the load path makes no inference call *)
Lemma fetch_no_inference (name : string) (s : State L) :
  inference_calls (calls (snd (fetch name s))) = inference_calls (calls s).
Proof.
  unfold fetch, inference_calls. unfold_monad.
  destruct (SentenceTransformer L name) as [msg|h]; simpl.
  - rewrite filter_app. simpl. apply app_nil_r.
  - destruct (eval L h) as [msg|]; simpl.
    + rewrite !filter_app. simpl. now rewrite !app_nil_r.
    + destruct (has_to L h); [destruct (to L h) as [msg|]|]; simpl;
        rewrite !filter_app; simpl; now rewrite !app_nil_r.
Qed.

(** every outcome of [load_model] *)
Lemma load_model_cases (name : option string) (s : State L) :
  (exists s', EmbeddingService.load_model settings name s = (Ok tt, s') /\
     is_not_None (model s') = true /\ Rt.model_name s' = Some (resolve settings name)) \/
  (exists cause s',
     EmbeddingService.load_model settings name s
     = (Raise (RuntimeError
          ("Failed to load model " ++ resolve settings name ++ ": " ++ cause)%string), s')
     /\ load_fails L (resolve settings name) cause /\ Rt.model_name s' = Rt.model_name s).
Proof.
  destruct (opt_str_eqb (Rt.model_name s) (Some (resolve settings name))
            && is_not_None (model s)) eqn:Hres.
  - left. apply andb_true_iff in Hres. destruct Hres as [Hn Hm].
    apply opt_str_eqb_eq in Hn.
    destruct (model s) as [h|] eqn:Hh; [|discriminate].
    exists s. split; [now apply load_model_resident with h|].
    rewrite Hh. now split.
  - rewrite (load_model_fetches _ _ Hres). apply fetch_cases.
Qed.

Lemma load_model_no_inference (name : option string) (s : State L) :
  inference_calls (calls (snd (EmbeddingService.load_model settings name s)))
  = inference_calls (calls s).
Proof.
  destruct (opt_str_eqb (Rt.model_name s) (Some (resolve settings name))
            && is_not_None (model s)) eqn:Hres.
  - unfold EmbeddingService.load_model. fold (resolve settings name).
    unfold bind, get. now rewrite Hres.
  - rewrite (load_model_fetches _ _ Hres). apply fetch_no_inference.
Qed.

End LifecycleFacts.

(* ===================================================================== *)
(** ** The inference runner *)
(* ===================================================================== *)

Section RunnerFacts.
Context {L : Library} (settings : Config.Settings).

(** the effective batch size: [batch_size or self.settings.max_batch_size] *)
Local Abbreviation effective bs := (Py.or_int bs (Config.max_batch_size settings)).

(** [generate_embeddings] on a non-empty list, stage by stage: the load, the
    residency check, the range, the loop, the two clock readings around the
    loop *)
Lemma generate_embeddings_stages (texts : list string) (name : option string)
  (normalize : bool) (bs : option Z) (s : State L) :
  texts <> [] ->
  EmbeddingService.generate_embeddings settings texts name normalize bs s =
  match EmbeddingService.load_model settings name s with
  | (Raise e, s1) => (Raise e, s1)
  | (Ok _, s1) =>
      match model s1 with
      | None => (Raise (RuntimeError "Model is not loaded"), s1)
      | Some h =>
          match Py.range 0 (Py.len texts) (effective bs) with
          | None =>
              (Raise (RuntimeError
                 "Failed to generate embeddings: range() arg 3 must not be zero"), s1)
          | Some idx =>
              match EmbeddingService.batch_loop h texts normalize (effective bs)
                      idx [] s1 with
              | (Ok embs, s2) => (Ok (embs, clock s2 - clock s1), s2)
              | (Raise e, s2) =>
                  (Raise (RuntimeError
                     ("Failed to generate embeddings: " ++ str e)%string), s2)
              end
          end
      end
  end.
Proof.
  intros Hne. unfold EmbeddingService.generate_embeddings.
  destruct texts as [|t texts]; [congruence|]. cbn [Py.is_empty].
  set (txs := t :: texts).
  unfold bind at 1.
  destruct (EmbeddingService.load_model settings name s) as [[[]|e] s1];
    [|reflexivity].
  unfold bind at 1. unfold get.
  destruct (model s1) as [h|]; [|reflexivity].
  unfold try_except, bind at 1, time_time.
  destruct (Py.range 0 (Py.len txs) (effective bs)) as [idx|].
  - unfold bind at 1, ret at 1. unfold bind at 1.
    destruct (EmbeddingService.batch_loop h txs normalize (effective bs) idx [] s1)
      as [[embs|e] s2]; reflexivity.
  - reflexivity.
Qed.

(** [generate_embeddings] never changes the identifier except through the
    load it starts with *)
Lemma generate_embeddings_name (texts : list string) (name : option string)
  (normalize : bool) (bs : option Z) (s : State L) :
  Rt.model_name
    (snd (EmbeddingService.generate_embeddings settings texts name normalize bs s))
  = Rt.model_name s \/
  Rt.model_name
    (snd (EmbeddingService.generate_embeddings settings texts name normalize bs s))
  = Some (resolve settings name).
Proof.
  destruct texts as [|t texts]; [left; reflexivity|].
  rewrite generate_embeddings_stages by discriminate.
  set (txs := t :: texts).
  destruct (load_model_cases settings name s)
    as [(s1 & -> & Hm & Hn)|(cause & s1 & -> & _ & Hn)].
  - right. destruct (model s1) as [h|]; [|exact Hn].
    destruct (Py.range 0 (Py.len txs) (effective bs)) as [idx|]; [|exact Hn].
    pose proof (batch_loop_frame h txs normalize (effective bs) idx [] s1)
      as (_ & Hname & _).
    destruct (EmbeddingService.batch_loop h txs normalize (effective bs) idx [] s1)
      as [[embs|e] s2]; simpl in *; congruence.
  - left. exact Hn.
Qed.

(** [get_model_info] returns in every state *)
Lemma get_model_info_returns (s : State L) :
  exists d s', EmbeddingService.get_model_info settings s = (Ok d, s') /\
               model s' = model s /\ Rt.model_name s' = Rt.model_name s.
Proof.
  unfold EmbeddingService.get_model_info. unfold bind at 1. unfold get at 1.
  destruct (model s) as [h|] eqn:Hm.
  - unfold_monad.
    destruct (has_get_sentence_embedding_dimension L h).
    + destruct (get_sentence_embedding_dimension L h) as [msg|d];
        do 2 eexists; (split; [reflexivity|]); simpl; now split.
    + destruct (encode L h ["test"] false) as [msg|[|v vs]];
        do 2 eexists; (split; [reflexivity|]); simpl; now split.
  - exists {| EmbeddingService.d_model_name := None;
              EmbeddingService.d_model_type := None;
              EmbeddingService.d_max_sequence_length := None;
              EmbeddingService.d_embedding_dimensions := None;
              EmbeddingService.d_is_loaded := false |}, s.
    now repeat split.
Qed.

(** with nothing resident, the record is empty and the state untouched *)
Lemma get_model_info_unloaded (s : State L) :
  model s = None ->
  EmbeddingService.get_model_info settings s =
  (Ok {| EmbeddingService.d_model_name := None;
         EmbeddingService.d_model_type := None;
         EmbeddingService.d_max_sequence_length := None;
         EmbeddingService.d_embedding_dimensions := None;
         EmbeddingService.d_is_loaded := false |}, s).
Proof.
  intros Hm. unfold EmbeddingService.get_model_info. unfold bind at 1.
  unfold get at 1. now rewrite Hm.
Qed.

(** [unload_model] returns in every state and leaves nothing resident *)
Lemma unload_model_returns (s : State L) :
  exists s', EmbeddingService.unload_model s = (Ok tt, s') /\
             model s' = None /\
             (model s = None -> s' = s) /\
             (model s <> None -> Rt.model_name s' = None) /\
             (Rt.model_name s' = None \/ Rt.model_name s' = Rt.model_name s).
Proof.
  unfold EmbeddingService.unload_model. unfold_monad.
  destruct (model s) as [h|] eqn:Hm; simpl.
  - destruct (cuda_is_available L); eexists;
      (split; [reflexivity|]); simpl; repeat split; try discriminate; now left.
  - exists s. repeat split; [exact Hm | congruence | now right].
Qed.

End RunnerFacts.

(* ===================================================================== *)
(** ** Batching: partition, order and output length *)
(* ===================================================================== *)

Section Batching.
Context {L : Library} (settings : Config.Settings).

Local Abbreviation effective bs := (Py.or_int bs (Config.max_batch_size settings)).

Lemma flat_map_batches (h : handle L) (normalize : bool) (texts : list string)
  (b : Z) (idx : list Z) :
  flat_map (fun i => encoded h normalize (batch_at texts b i)) idx
  = flat_map (encoded h normalize) (map (batch_at texts b) idx).
Proof.
  induction idx as [|i idx IH]; simpl; [reflexivity | now rewrite IH].
Qed.

Lemma length_flat_map_encoded (h : handle L) (normalize : bool)
  (chunks : list (list string)) :
  (forall c, In c chunks ->
     exists vs, encode L h c normalize = inr vs /\ List.length vs = List.length c) ->
  List.length (flat_map (encoded h normalize) chunks)
  = List.length (List.concat chunks).
Proof.
  induction chunks as [|c chunks IH]; intros Henc; simpl; [reflexivity|].
  rewrite !length_app, IH by (intros c' Hc'; apply Henc; now right).
  destruct (Henc c (or_introl eq_refl)) as (vs & Hvs & Hlen).
  unfold encoded. now rewrite Hvs, Hlen.
Qed.

Lemma flat_map_encoded_pointwise (h : handle L) (normalize : bool)
  (f : string -> list (float L)) (chunks : list (list string)) :
  (forall c, In c chunks -> encode L h c normalize = inr (map f c)) ->
  flat_map (encoded h normalize) chunks = map f (List.concat chunks).
Proof.
  induction chunks as [|c chunks IH]; intros Henc; simpl; [reflexivity|].
  rewrite map_app, IH by (intros c' Hc'; apply Henc; now right).
  unfold encoded. now rewrite (Henc c (or_introl eq_refl)).
Qed.

(** X1. With a positive effective batch size, a model that loads and a library
    that returns one vector per text of every chunk: the texts are cut into
    [ceil(n / b)] contiguous chunks of at most [b] texts, one inference call
    is made per chunk, in order, and the result is the concatenation of the
    per-chunk outputs, [n] vectors in all (in the order of the input when
    the library embeds text by text). *)
Theorem generate_embeddings_partition (texts : list string)
  (name : option string) (normalize : bool) (bs : option Z)
  (s s1 : State L) (h : handle L) :
  texts <> [] ->
  0 < effective bs ->
  EmbeddingService.load_model settings name s = (Ok tt, s1) ->
  model s1 = Some h ->
  (forall chunks c, batches texts (effective bs) = Some chunks -> In c chunks ->
     exists vs, encode L h c normalize = inr vs /\ List.length vs = List.length c) ->
  exists chunks embs elapsed s2,
    batches texts (effective bs) = Some chunks /\
    List.concat chunks = texts /\
    Forall (fun c => 0 < Py.len c <= effective bs) chunks /\
    effective bs * (Py.len chunks - 1) < Py.len texts
      <= effective bs * Py.len chunks /\
    EmbeddingService.generate_embeddings settings texts name normalize bs s
      = (Ok (embs, elapsed), s2) /\
    calls s2 = calls s1 ++ map (fun c => CallEncode c normalize) chunks /\
    embs = flat_map (encoded h normalize) chunks /\
    List.length embs = List.length texts /\
    (forall f, (forall c, In c chunks -> encode L h c normalize = inr (map f c)) ->
       embs = map f texts).
Proof.
  intros Hne Hb Hload Hm Henc.
  destruct (batches_partition texts (effective bs) Hb Hne)
    as (chunks & Hchunks & Hcat & Hsize & Hceil).
  specialize (Henc chunks).
  unfold batches in Hchunks.
  destruct (Py.range 0 (Py.len texts) (effective bs)) as [idx|] eqn:Hrange;
    [|discriminate].
  injection Hchunks as Hchunks.
  assert (Hall : Forall (succeeds h texts (effective bs) normalize) idx).
  { apply Forall_forall. intros i Hi.
    destruct (Henc (batch_at texts (effective bs) i)) as (vs & Hvs & _).
    - unfold batches. rewrite Hrange, Hchunks. reflexivity.
    - rewrite <- Hchunks. now apply in_map.
    - now exists vs. }
  exists chunks, (flat_map (encoded h normalize) chunks).
  eexists. eexists.
  split; [unfold batches; rewrite Hrange, Hchunks; reflexivity|].
  split; [exact Hcat|]. split; [exact Hsize|]. split; [exact Hceil|].
  split.
  { rewrite generate_embeddings_stages by exact Hne.
    rewrite Hload, Hm, Hrange, (batch_loop_ok _ _ _ _ _ _ _ Hall).
    simpl. rewrite flat_map_batches, Hchunks. reflexivity. }
  split.
  { rewrite run_calls_trace. f_equal. rewrite <- Hchunks, map_map. reflexivity. }
  split; [reflexivity|]. split.
  - rewrite length_flat_map_encoded, Hcat; [reflexivity|].
    intros c Hc. apply Henc; [|exact Hc].
    unfold batches. rewrite Hrange, Hchunks. reflexivity.
  - intros f Hf. rewrite <- Hcat. now apply flat_map_encoded_pointwise.
Qed.

End Batching.

(** The theorem at work: five texts, batch size two, three chunks (2, 2, 1). *)
Lemma generate_embeddings_partition_witness :
  exists chunks embs elapsed s2,
    batches Toy.five 2 = Some chunks /\
    List.concat chunks = Toy.five /\
    Forall (fun c => 0 < Py.len c <= 2) chunks /\
    2 * (Py.len chunks - 1) < 5 <= 2 * Py.len chunks /\
    EmbeddingService.generate_embeddings Toy.settings Toy.five None true None Toy.s0
      = (Ok (embs, elapsed), s2) /\
    calls s2 = calls Toy.s_mini ++ map (fun c => CallEncode c true) chunks /\
    embs = flat_map (@encoded Toy.lib "mini" true) chunks /\
    List.length embs = 5%nat /\
    (forall f, (forall c, In c chunks -> encode Toy.lib "mini" c true = inr (map f c)) ->
       embs = map f Toy.five).
Proof.
  apply (generate_embeddings_partition (L := Toy.lib) Toy.settings Toy.five None
           true None Toy.s0 Toy.s_mini "mini").
  - discriminate.
  - reflexivity.
  - reflexivity.
  - reflexivity.
  - intros chunks c Hb Hc. injection Hb as <-.
    simpl in Hc.
    destruct Hc as [<-|[<-|[<-|[]]]]; eexists; split; reflexivity.
Defined.

(** C1, evaluated at a negative batch size: POST /embeddings with three
    texts and [batch_size = -1] is answered with 200, an empty list of
    embeddings and [total_texts = 3]; the model was loaded, no inference
    call was made. *)
Lemma negative_batch_size_drops_embeddings :
  Main.post_embeddings Toy.settings
    (Toy.payload ["a"; "bb"; "ccc"] (Some (-1))) Toy.s0
  = ({| Main.status_code := 200;
        Main.body := Main.JsonEmbeddings
          {| Models.embeddings := [];
             Models.r_model_name := "mini";
             Models.dimensions := 2;
             Models.processing_time := 0;
             Models.total_texts := 3 |} |},
     @Build_State Toy.lib (Some "mini") (Some "mini") 107
       [CallSentenceTransformer "mini"; CallEval; CallTo; CallGetDimension]).
Proof. reflexivity. Qed.

(* ===================================================================== *)
(** ** Elapsed time *)
(* ===================================================================== *)

(** C9 as stated fails: on a fresh process the call loads the model (7 time
    units) and runs one inference call (1 unit); steps 2 to 4 take 8 units
    of the clock, the reported processing time is 1. *)
Lemma processing_time_excludes_load :
  fst (EmbeddingService.generate_embeddings Toy.settings ["a"] None true None Toy.s0)
    = Ok ([[1; 1]], 1) /\
  load_calls
    (calls (snd (EmbeddingService.generate_embeddings Toy.settings ["a"] None
                   true None Toy.s0)))
    = [CallSentenceTransformer "mini"; CallEval; CallTo] /\
  clock (snd (EmbeddingService.generate_embeddings Toy.settings ["a"] None true
                None Toy.s0)) - clock Toy.s0 = 8 /\
  1 <> clock (snd (EmbeddingService.generate_embeddings Toy.settings ["a"] None
                     true None Toy.s0)) - clock Toy.s0.
Proof.
  repeat split; try reflexivity. vm_compute. discriminate.
Qed.

Section ElapsedTime.
Context {L : Library} (settings : Config.Settings).

Local Abbreviation effective bs := (Py.or_int bs (Config.max_batch_size settings)).

(** C9, amended: the processing time of a successful call is the interval
    from the clock reading taken after the model has been ensured loaded and
    the batch size resolved to the reading taken after the loop; it is the
    total time of the inference calls, and the time the load took is not
    part of it. *)
Theorem processing_time_covers_inference_only (texts : list string)
  (name : option string) (normalize : bool) (bs : option Z)
  (s s2 : State L) (embs : list (list (float L))) (elapsed : Z) :
  EmbeddingService.generate_embeddings settings texts name normalize bs s
    = (Ok (embs, elapsed), s2) ->
  exists s1 h chunks,
    EmbeddingService.load_model settings name s = (Ok tt, s1) /\
    model s1 = Some h /\
    batches texts (effective bs) = Some chunks /\
    calls s2 = calls s1 ++ map (fun c => CallEncode c normalize) chunks /\
    elapsed = clock s2 - clock s1 /\
    elapsed = total_duration h (map (fun c => CallEncode c normalize) chunks) /\
    clock s2 - clock s = (clock s1 - clock s) + elapsed.
Proof.
  intros Hrun.
  destruct texts as [|t texts]; [discriminate|].
  rewrite generate_embeddings_stages in Hrun by discriminate.
  set (txs := t :: texts) in *.
  destruct (EmbeddingService.load_model settings name s) as [[[]|e] s1];
    [|discriminate].
  destruct (model s1) as [h|] eqn:Hm; [|discriminate].
  unfold batches.
  destruct (Py.range 0 (Py.len txs) (effective bs)) as [idx|]; [|discriminate].
  destruct (EmbeddingService.batch_loop h txs normalize (effective bs) idx [] s1)
    as [[embs'|e] s2'] eqn:Hloop; [|discriminate].
  injection Hrun as -> <- ->.
  pose proof (batch_loop_returned _ _ _ _ _ _ _ _ _ Hloop) as Hall.
  rewrite (batch_loop_ok _ _ _ _ _ _ _ Hall) in Hloop.
  injection Hloop as _ <-.
  exists s1, h, (map (batch_at txs (effective bs)) idx).
  assert (Hcalls : map (encode_call txs (effective bs) normalize) idx
                   = map (fun c => CallEncode c normalize)
                         (map (batch_at txs (effective bs)) idx)).
  { now rewrite map_map. }
  rewrite Hcalls, run_calls_clock, run_calls_trace.
  repeat split; try reflexivity; try exact Hm; lia.
Qed.

End ElapsedTime.

Lemma processing_time_covers_inference_only_witness :
  exists s1 h chunks,
    EmbeddingService.load_model Toy.settings None Toy.s0 = (Ok tt, s1) /\
    model s1 = Some h /\
    batches Toy.five 2 = Some chunks /\
    calls (snd (EmbeddingService.generate_embeddings Toy.settings Toy.five
                  None true None Toy.s0))
      = calls s1 ++ map (fun c => CallEncode c true) chunks /\
    5 = clock (snd (EmbeddingService.generate_embeddings Toy.settings Toy.five
                      None true None Toy.s0)) - clock s1 /\
    5 = @total_duration Toy.lib h (map (fun c => CallEncode c true) chunks) /\
    clock (snd (EmbeddingService.generate_embeddings Toy.settings Toy.five
                  None true None Toy.s0)) - clock Toy.s0
      = (clock s1 - clock Toy.s0) + 5.
Proof.
  apply (processing_time_covers_inference_only (L := Toy.lib) Toy.settings
           Toy.five None true None Toy.s0 _
           [[1; 1]; [2; 1]; [3; 1]; [2; 1]; [1; 1]] 5).
  reflexivity.
Defined.

(* ===================================================================== *)
(** ** Negative and zero batch sizes *)
(* ===================================================================== *)

Section OddBatchSizes.
Context {L : Library} (settings : Config.Settings).

(** C10: with a non-empty list and a negative caller-supplied batch size,
    the range is empty and the loop body never runs: the call makes no
    inference call and raises nothing of its own, its outcome is that of the
    load it starts with, and once the model is loaded it returns the empty
    list, which is shorter than the input.  A caller-supplied batch size of
    0 is falsy: the call is the very call made with no batch size, which
    uses the configured [max_batch_size]. *)
Theorem negative_batch_size_returns_empty (texts : list string)
  (name : option string) (normalize : bool) (b : Z) (s : State L) :
  texts <> [] ->
  b < 0 ->
  batches texts (Py.or_int (Some b) (Config.max_batch_size settings)) = Some [] /\
  EmbeddingService.generate_embeddings settings texts name normalize (Some b) s
    = match EmbeddingService.load_model settings name s with
      | (Ok _, s1) => (Ok ([], 0), s1)
      | (Raise e, s1) => (Raise e, s1)
      end /\
  inference_calls
    (calls (snd (EmbeddingService.generate_embeddings settings texts name
                   normalize (Some b) s)))
    = inference_calls (calls s) /\
  (forall s1, EmbeddingService.load_model settings name s = (Ok tt, s1) ->
     EmbeddingService.generate_embeddings settings texts name normalize (Some b) s
       = (Ok ([], 0), s1) /\
     List.length (@nil (list (float L))) <> List.length texts) /\
  Py.or_int (Some 0) (Config.max_batch_size settings)
    = Config.max_batch_size settings /\
  (forall s' : State L,
     EmbeddingService.generate_embeddings settings texts name normalize
       (Some 0) s'
     = EmbeddingService.generate_embeddings settings texts name normalize
         None s').
Proof.
  intros Hne Hb.
  assert (Heff : Py.or_int (Some b) (Config.max_batch_size settings) = b).
  { unfold Py.or_int. destruct (Z.eqb_spec b 0); [lia|reflexivity]. }
  assert (Hrange : Py.range 0 (Py.len texts) b = Some []).
  { apply range_negative_step_empty; [unfold Py.len; lia | exact Hb]. }
  assert (Hrun :
    EmbeddingService.generate_embeddings settings texts name normalize (Some b) s
    = match EmbeddingService.load_model settings name s with
      | (Ok _, s1) => (Ok ([], 0), s1)
      | (Raise e, s1) => (Raise e, s1)
      end).
  { rewrite generate_embeddings_stages by exact Hne. rewrite Heff.
    destruct (load_model_cases settings name s)
      as [(s1 & -> & Hm & _)|(cause & s1 & -> & _)]; [|reflexivity].
    destruct (model s1) as [h|]; [|discriminate].
    rewrite Hrange. simpl. now rewrite Z.sub_diag. }
  rewrite Heff. split; [|split; [|split; [|split; [|split]]]].
  - unfold batches. now rewrite Hrange.
  - exact Hrun.
  - rewrite Hrun.
    pose proof (load_model_no_inference settings name s) as Hno.
    destruct (EmbeddingService.load_model settings name s) as [[[]|e] s1];
      exact Hno.
  - intros s1 Hload. rewrite Hrun, Hload. split; [reflexivity|].
    destruct texts; [congruence|discriminate].
  - reflexivity.
  - reflexivity.
Qed.

End OddBatchSizes.

Lemma negative_batch_size_returns_empty_witness :
  batches Toy.five (Py.or_int (Some (-3)) 2) = Some [] /\
  EmbeddingService.generate_embeddings Toy.settings Toy.five None true
    (Some (-3)) Toy.s0 = (Ok ([], 0), Toy.s_mini) /\
  inference_calls
    (calls (snd (EmbeddingService.generate_embeddings Toy.settings Toy.five None
                   true (Some (-3)) Toy.s0)))
    = inference_calls (calls Toy.s0) /\
  (forall s1, EmbeddingService.load_model Toy.settings None Toy.s0 = (Ok tt, s1) ->
     EmbeddingService.generate_embeddings Toy.settings Toy.five None true
       (Some (-3)) Toy.s0 = (Ok ([], 0), s1) /\
     List.length (@nil (list Z)) <> List.length Toy.five) /\
  Py.or_int (Some 0) 2 = 2 /\
  (forall s' : State Toy.lib,
     EmbeddingService.generate_embeddings Toy.settings Toy.five None true
       (Some 0) s'
     = EmbeddingService.generate_embeddings Toy.settings Toy.five None true
         None s').
Proof.
  apply (negative_batch_size_returns_empty (L := Toy.lib) Toy.settings Toy.five
           None true (-3) Toy.s0).
  - discriminate.
  - lia.
Defined.

(* ===================================================================== *)
(** ** Lifecycle: idempotent load, failing load, unload, info *)
(* ===================================================================== *)

Section Lifecycle.
Context {L : Library} (settings : Config.Settings).

(** In every state the service reaches, the resident identifier is one that
    a load request resolves to itself: it is never the empty string unless
    the configured default is. *)
Lemma reachable_name_resolved (s : State L) :
  reachable settings s ->
  forall m, Rt.model_name s = Some m -> resolve settings (Some m) = m.
Proof.
  induction 1 as [t0|s name _ IH|s texts name normalize bs _ IH|s _ IH|s _ IH
                  |s dt _ IH]; intros m Hm.
  - discriminate.
  - destruct (load_model_cases settings name s)
      as [(s' & Hrun & _ & Hn)|(cause & s' & Hrun & _ & Hn)];
      rewrite Hrun in Hm; simpl in Hm; rewrite Hn in Hm.
    + injection Hm as <-. apply resolve_idem.
    + now apply IH.
  - destruct (generate_embeddings_name settings texts name normalize bs s)
      as [Hn|Hn]; rewrite Hn in Hm.
    + now apply IH.
    + injection Hm as <-. apply resolve_idem.
  - destruct (get_model_info_returns settings s) as (d & s' & Hrun & _ & Hn).
    rewrite Hrun in Hm. simpl in Hm. rewrite Hn in Hm. now apply IH.
  - destruct (unload_model_returns s) as (s' & Hrun & _ & _ & _ & [Hn|Hn]);
      rewrite Hrun in Hm; simpl in Hm; rewrite Hn in Hm.
    + discriminate.
    + now apply IH.
  - now apply IH.
Qed.

(** C4: in a state the service has reached, with a model resident under the
    identifier [m], [load_model(m)] returns at once: the state, and with it
    the resident model, its identifier, the trace of library calls and the
    clock, is what it was, so nothing is fetched or initialised again.  The
    same holds for [load_model()] when [m] is the configured default. *)
Theorem load_model_idempotent (s : State L) (h : handle L) (m : string) :
  reachable settings s ->
  model s = Some h ->
  Rt.model_name s = Some m ->
  EmbeddingService.load_model settings (Some m) s = (Ok tt, s) /\
  (m = Config.default_model_name settings ->
   EmbeddingService.load_model settings None s = (Ok tt, s)).
Proof.
  intros Hreach Hmodel Hname. split.
  - apply load_model_resident with h; [exact Hmodel|].
    now rewrite (reachable_name_resolved s Hreach m Hname).
  - intros ->. now apply load_model_resident with h.
Qed.

(** C7: a load request that is not answered by the early return and whose
    fetch or initialisation fails raises a [RuntimeError] whose message
    carries the cause, and POST /model/load answers it with 500 and that
    message. *)
Theorem load_failure_is_wrapped (name : option string) (cause : string)
  (s : State L) :
  opt_str_eqb (Rt.model_name s) (Some (resolve settings name))
    && is_not_None (model s) = false ->
  load_fails L (resolve settings name) cause ->
  exists s',
    EmbeddingService.load_model settings name s
    = (Raise (RuntimeError
         ("Failed to load model " ++ resolve settings name ++ ": " ++ cause)%string),
       s') /\
    (forall n, name = Some n ->
       Main.post_model_load settings (Some n) s
       = ({| Main.status_code := 500;
             Main.body := Main.JsonDetail
               ("Failed to load model " ++ resolve settings name ++ ": "
                ++ cause)%string |}, s')).
Proof.
  intros Hfresh Hfail.
  destruct (fetch_raises (resolve settings name) cause s Hfail) as (s' & Hrun).
  rewrite <- (load_model_fetches settings name s Hfresh) in Hrun.
  exists s'. split; [exact Hrun|].
  intros n ->. unfold Main.post_model_load, Main.serve, Main.load_model.
  unfold try_except, bind at 1. now rewrite Hrun.
Qed.

(** C5: [unload_model] returns in every state; afterwards nothing is
    resident (a resident model and its identifier are cleared),
    [is_model_loaded()] is false and GET /model/info answers 503.  With
    nothing resident the state is left as it was. *)
Theorem unload_model_never_fails (s : State L) :
  exists s',
    EmbeddingService.unload_model s = (Ok tt, s') /\
    model s' = None /\
    (model s <> None -> Rt.model_name s' = None) /\
    (model s = None -> s' = s) /\
    EmbeddingService.is_model_loaded s' = (Ok false, s') /\
    Main.get_model_info_route settings s'
    = ({| Main.status_code := 503;
          Main.body := Main.JsonDetail
            "No model is currently loaded. Model will be loaded on first embedding request." |},
       s') /\
    Main.post_model_unload settings s
    = ({| Main.status_code := 200;
          Main.body := Main.JsonMessage "Model unloaded successfully" |}, s').
Proof.
  destruct (unload_model_returns s) as (s' & Hrun & Hnone & Hnoop & Hclear & _).
  exists s'. split; [exact Hrun|]. split; [exact Hnone|].
  split; [exact Hclear|]. split; [exact Hnoop|].
  split; [|split].
  - unfold EmbeddingService.is_model_loaded. unfold_monad. now rewrite Hnone.
  - unfold Main.get_model_info_route, Main.serve, Main.get_model_info,
      Main.http_guard.
    unfold try_except, bind at 1.
    now rewrite (get_model_info_unloaded settings s' Hnone).
  - unfold Main.post_model_unload, Main.serve, Main.unload_model.
    unfold try_except, bind at 1. now rewrite Hrun.
Qed.

(** C8: [get_model_info] returns in every state.  With nothing resident it
    returns the all-empty record with [is_loaded] false and touches nothing;
    with a model resident whose dimensionality cannot be resolved it returns
    a record with [is_loaded] false and no dimensions. *)
Theorem get_model_info_never_raises (s : State L) :
  exists d s',
    EmbeddingService.get_model_info settings s = (Ok d, s') /\
    (model s = None ->
       s' = s /\
       d = {| EmbeddingService.d_model_name := None;
              EmbeddingService.d_model_type := None;
              EmbeddingService.d_max_sequence_length := None;
              EmbeddingService.d_embedding_dimensions := None;
              EmbeddingService.d_is_loaded := false |}) /\
    (forall h, model s = Some h -> info_fails L h ->
       EmbeddingService.d_is_loaded d = false /\
       EmbeddingService.d_embedding_dimensions d = None /\
       EmbeddingService.d_model_name d = Rt.model_name s).
Proof.
  destruct (get_model_info_returns settings s) as (d & s' & Hrun & _).
  exists d, s'. split; [exact Hrun|]. split.
  - intros Hnone. rewrite (get_model_info_unloaded settings s Hnone) in Hrun.
    injection Hrun as <- <-. now split.
  - intros h Hm Hfail. revert Hrun.
    unfold EmbeddingService.get_model_info. unfold bind at 1. unfold get at 1.
    rewrite Hm. unfold_monad.
    destruct Hfail as [msg Hhas Hget|msg Hhas Henc|Hhas Henc]; rewrite Hhas.
    + rewrite Hget. intros [= <- <-]. now repeat split.
    + rewrite Henc. intros [= <- <-]. now repeat split.
    + rewrite Henc. intros [= <- <-]. now repeat split.
Qed.

End Lifecycle.

Lemma load_model_idempotent_witness :
  EmbeddingService.load_model Toy.settings (Some "mini") Toy.s_mini
    = (Ok tt, Toy.s_mini) /\
  ("mini" = Config.default_model_name Toy.settings ->
   EmbeddingService.load_model Toy.settings None Toy.s_mini = (Ok tt, Toy.s_mini)).
Proof.
  apply (load_model_idempotent (L := Toy.lib) Toy.settings Toy.s_mini "mini" "mini").
  - exact (reach_load Toy.settings Toy.s0 None (reach_init Toy.settings 100)).
  - reflexivity.
  - reflexivity.
Defined.

Lemma load_failure_is_wrapped_witness :
  exists s',
    EmbeddingService.load_model Toy.settings (Some "missing") Toy.s_mini
    = (Raise (RuntimeError "Failed to load model missing: no such model"), s') /\
    (forall n, Some "missing" = Some n ->
       Main.post_model_load Toy.settings (Some n) Toy.s_mini
       = ({| Main.status_code := 500;
             Main.body := Main.JsonDetail
               "Failed to load model missing: no such model" |}, s')).
Proof.
  apply (load_failure_is_wrapped (L := Toy.lib) Toy.settings (Some "missing")
           "no such model" Toy.s_mini).
  - reflexivity.
  - apply fails_in_constructor. reflexivity.
Defined.

Lemma get_model_info_never_raises_witness :
  exists d s',
    EmbeddingService.get_model_info Toy.settings
      (snd (EmbeddingService.load_model Toy.settings (Some "nodim") Toy.s0))
    = (Ok d, s') /\
    EmbeddingService.d_is_loaded d = false /\
    EmbeddingService.d_embedding_dimensions d = None /\
    EmbeddingService.d_model_name d = Some "nodim".
Proof.
  destruct (get_model_info_never_raises (L := Toy.lib) Toy.settings
              (snd (EmbeddingService.load_model Toy.settings (Some "nodim") Toy.s0)))
    as (d & s' & Hrun & _ & Hdegraded).
  exists d, s'. split; [exact Hrun|].
  apply (Hdegraded "nodim").
  - reflexivity.
  - apply accessor_raises with "no dimension"; reflexivity.
Defined.

(* ===================================================================== *)
(** ** The HTTP surface of POST /embeddings *)
(* ===================================================================== *)

Section Embeddings.
Context {L : Library} (settings : Config.Settings).

Local Abbreviation effective bs := (Py.or_int bs (Config.max_batch_size settings)).
Local Abbreviation limit := (Config.max_sequence_length settings).

Lemma check_text_lengths_pass (i : Z) (texts : list string) (s : State L) :
  Forall (fun t => Py.strlen t <= limit) texts ->
  Main.check_text_lengths settings i texts s = (Ok tt, s).
Proof.
  intros Hall. revert i. induction Hall as [|t texts Ht _ IH]; intros i; simpl.
  - reflexivity.
  - destruct (Z.ltb_spec limit (Py.strlen t)); [lia | apply IH].
Qed.

(** the check stops at the first text that is too long and names its index *)
Lemma check_text_lengths_stop (i : Z) (texts : list string) (s : State L) :
  Exists (fun t => limit < Py.strlen t) texts ->
  exists k text,
    nth_error texts k = Some text /\
    limit < Py.strlen text /\
    Forall (fun t => Py.strlen t <= limit) (firstn k texts) /\
    Main.check_text_lengths settings i texts s
    = (Raise (HTTPException 400 (too_long_detail settings (i + Z.of_nat k))), s).
Proof.
  revert i. induction texts as [|t texts IH]; intros i Hex.
  - inversion Hex.
  - simpl. destruct (Z.ltb_spec limit (Py.strlen t)) as [Hlong|Hshort].
    + exists 0%nat, t. rewrite Z.add_0_r. repeat split; [exact Hlong|constructor].
    + assert (Hrest : Exists (fun t => limit < Py.strlen t) texts).
      { inversion Hex; subst; [lia|assumption]. }
      destruct (IH (i + 1) Hrest) as (k & text & Hnth & Hlong & Hbefore & Hrun).
      exists (S k), text.
      replace (i + Z.of_nat (S k)) with (i + 1 + Z.of_nat k) by lia.
      cbn [nth_error firstn]. repeat split; try assumption.
      now constructor.
Qed.

(** what the route answers when the service call raises *)
Lemma post_embeddings_service_raises (p : Models.Payload)
  (request : Models.EmbeddingRequest) (msg : string) (s s' : State L) :
  Models.EmbeddingRequest_validate p = Some request ->
  Forall (fun t => Py.strlen t <= limit) (Models.texts request) ->
  EmbeddingService.generate_embeddings settings (Models.texts request)
    (Models.model_name request) (Models.normalize request)
    (Models.batch_size request) s = (Raise (RuntimeError msg), s') ->
  Main.post_embeddings settings p s
  = ({| Main.status_code := 500; Main.body := Main.JsonDetail msg |}, s').
Proof.
  intros Hvalid Hlen Hrun. unfold Main.post_embeddings. rewrite Hvalid.
  unfold Main.serve, Main.generate_embeddings, Main.http_guard.
  unfold try_except, bind at 1.
  rewrite (check_text_lengths_pass 0 _ s Hlen).
  unfold bind at 1. now rewrite Hrun.
Qed.

End Embeddings.

(** C2 as stated fails: one text of six characters against a limit of five
    is answered with 400, not 422. *)
Lemma oversized_text_is_answered_400 :
  Models.EmbeddingRequest_validate (Toy.payload ["abcdef"] None) <> None /\
  Config.max_sequence_length Toy.settings < Py.strlen "abcdef" /\
  Main.post_embeddings Toy.settings (Toy.payload ["abcdef"] None) Toy.s0
  = ({| Main.status_code := 400;
        Main.body := Main.JsonDetail
          "Text at index 0 exceeds maximum length of 5 characters" |}, Toy.s0) /\
  Main.status_code
    (fst (Main.post_embeddings Toy.settings (Toy.payload ["abcdef"] None) Toy.s0))
  <> 422.
Proof.
  repeat split; try discriminate.
Qed.

Section EmbeddingsClaims.
Context {L : Library} (settings : Config.Settings).

Local Abbreviation effective bs := (Py.or_int bs (Config.max_batch_size settings)).
Local Abbreviation limit := (Config.max_sequence_length settings).

(** C2, amended: a request with 1 to 100 texts of which at least one has
    more characters than [max_sequence_length] is answered with status 400,
    naming the index of the first such text; the state is untouched, so no
    model is loaded and no inference is made. *)
Theorem oversized_text_rejected_before_inference (p : Models.Payload)
  (s : State L) :
  1 <= Py.len (Models.p_texts p) <= 100 ->
  Exists (fun t => limit < Py.strlen t) (Models.p_texts p) ->
  exists k text,
    nth_error (Models.p_texts p) k = Some text /\
    limit < Py.strlen text /\
    Forall (fun t => Py.strlen t <= limit) (firstn k (Models.p_texts p)) /\
    Main.post_embeddings settings p s
    = ({| Main.status_code := 400;
          Main.body := Main.JsonDetail (too_long_detail settings (Z.of_nat k)) |},
       s).
Proof.
  intros Hshape Hlong.
  destruct (check_text_lengths_stop settings 0 (Models.p_texts p) s Hlong)
    as (k & text & Hnth & Htext & Hbefore & Hrun).
  exists k, text. repeat split; try assumption.
  unfold Main.post_embeddings, Models.EmbeddingRequest_validate.
  destruct (Z.leb_spec 1 (Py.len (Models.p_texts p))); [|lia].
  destruct (Z.leb_spec (Py.len (Models.p_texts p)) 100); [|lia].
  cbn [andb]. unfold Main.serve, Main.generate_embeddings, Main.http_guard.
  unfold try_except, bind at 1. cbn [Models.texts]. now rewrite Hrun.
Qed.

(** C3: a request with no text or with more than 100 texts is answered with
    422 and the state is untouched, so nothing is loaded and no inference is
    made; and [generate_embeddings] itself, called on an empty list, raises
    [ValueError] in the state it was called in. *)
Theorem empty_or_too_many_texts_rejected (p : Models.Payload) (s : State L) :
  Py.len (Models.p_texts p) = 0 \/ 100 < Py.len (Models.p_texts p) ->
  Main.post_embeddings settings p s
  = ({| Main.status_code := 422; Main.body := Main.JsonValidation |}, s) /\
  (forall name normalize bs (s' : State L),
     EmbeddingService.generate_embeddings settings [] name normalize bs s'
     = (Raise (ValueError "Texts list cannot be empty"), s')).
Proof.
  intros Hshape. split; [|reflexivity].
  unfold Main.post_embeddings, Models.EmbeddingRequest_validate.
  destruct (Z.leb_spec 1 (Py.len (Models.p_texts p)));
    destruct (Z.leb_spec (Py.len (Models.p_texts p)) 100);
    try reflexivity; lia.
Qed.

(** C6: when the library raises on one of the chunks, [generate_embeddings]
    raises a [RuntimeError] whose message carries what the library raised on
    the first such chunk; the result is that exception and nothing else, no
    embeddings are returned.  POST /embeddings answers with 500 and the same
    message. *)
Theorem inference_failure_is_atomic (texts : list string)
  (name : option string) (normalize : bool) (bs : option Z)
  (s s1 : State L) (h : handle L) (chunks : list (list string)) :
  texts <> [] ->
  EmbeddingService.load_model settings name s = (Ok tt, s1) ->
  model s1 = Some h ->
  batches texts (effective bs) = Some chunks ->
  Exists (fun c => exists msg, encode L h c normalize = inl msg) chunks ->
  exists cause chunk s2,
    In chunk chunks /\
    encode L h chunk normalize = inl cause /\
    EmbeddingService.generate_embeddings settings texts name normalize bs s
    = (Raise (RuntimeError ("Failed to generate embeddings: " ++ cause)%string), s2) /\
    (forall p,
       Models.EmbeddingRequest_validate p
       = Some {| Models.texts := texts; Models.model_name := name;
                 Models.normalize := normalize; Models.batch_size := bs |} ->
       Forall (fun t => Py.strlen t <= limit) texts ->
       Main.post_embeddings settings p s
       = ({| Main.status_code := 500;
             Main.body := Main.JsonDetail
               ("Failed to generate embeddings: " ++ cause)%string |}, s2)).
Proof.
  intros Hne Hload Hm Hchunks Hex.
  unfold batches in Hchunks.
  destruct (Py.range 0 (Py.len texts) (effective bs)) as [idx|] eqn:Hrange;
    [|discriminate].
  injection Hchunks as <-.
  assert (Hidx : Exists (fun i => exists msg,
                   fails_with h texts (effective bs) normalize msg i) idx).
  { apply Exists_exists in Hex. destruct Hex as (c & Hc & msg & Hmsg).
    apply in_map_iff in Hc. destruct Hc as (i & <- & Hi).
    apply Exists_exists. exists i. split; [exact Hi | now exists msg]. }
  destruct (batch_loop_raises h texts normalize (effective bs) idx [] s1 Hidx)
    as (cause & i & s2 & Hloop & Hi & Hfail).
  assert (Hrun :
    EmbeddingService.generate_embeddings settings texts name normalize bs s
    = (Raise (RuntimeError ("Failed to generate embeddings: " ++ cause)%string), s2)).
  { rewrite generate_embeddings_stages by exact Hne.
    now rewrite Hload, Hm, Hrange, Hloop. }
  exists cause, (batch_at texts (effective bs) i), s2.
  split; [now apply in_map|]. split; [exact Hfail|]. split; [exact Hrun|].
  intros p Hvalid Hlen.
  now apply post_embeddings_service_raises with
    {| Models.texts := texts; Models.model_name := name;
       Models.normalize := normalize; Models.batch_size := bs |}.
Qed.

End EmbeddingsClaims.

Lemma oversized_text_rejected_before_inference_witness :
  exists k text,
    nth_error ["ok"; "abcdef"; "abcdefgh"] k = Some text /\
    5 < Py.strlen text /\
    Forall (fun t => Py.strlen t <= 5) (firstn k ["ok"; "abcdef"; "abcdefgh"]) /\
    Main.post_embeddings Toy.settings
      (Toy.payload ["ok"; "abcdef"; "abcdefgh"] None) Toy.s0
    = ({| Main.status_code := 400;
          Main.body := Main.JsonDetail
            (too_long_detail Toy.settings (Z.of_nat k)) |}, Toy.s0).
Proof.
  apply (oversized_text_rejected_before_inference (L := Toy.lib) Toy.settings
           (Toy.payload ["ok"; "abcdef"; "abcdefgh"] None) Toy.s0).
  - vm_compute. split; discriminate.
  - apply Exists_cons_tl, Exists_cons_hd. reflexivity.
Defined.

Lemma empty_or_too_many_texts_rejected_witness :
  Main.post_embeddings Toy.settings (Toy.payload [] None) Toy.s0
  = ({| Main.status_code := 422; Main.body := Main.JsonValidation |}, Toy.s0) /\
  (forall name normalize bs (s' : State Toy.lib),
     EmbeddingService.generate_embeddings Toy.settings [] name normalize bs s'
     = (Raise (ValueError "Texts list cannot be empty"), s')).
Proof.
  apply (empty_or_too_many_texts_rejected (L := Toy.lib) Toy.settings
           (Toy.payload [] None) Toy.s0).
  left. reflexivity.
Defined.

Lemma inference_failure_is_atomic_witness :
  exists cause chunk s2,
    In chunk [["a"; "bb"]; ["boom"; "dd"]; ["e"]] /\
    encode Toy.lib "mini" chunk true = inl cause /\
    EmbeddingService.generate_embeddings Toy.settings
      ["a"; "bb"; "boom"; "dd"; "e"] None true None Toy.s0
    = (Raise (RuntimeError ("Failed to generate embeddings: " ++ cause)%string), s2) /\
    (forall p,
       Models.EmbeddingRequest_validate p
       = Some {| Models.texts := ["a"; "bb"; "boom"; "dd"; "e"];
                 Models.model_name := None;
                 Models.normalize := true; Models.batch_size := None |} ->
       Forall (fun t => Py.strlen t <= 5) ["a"; "bb"; "boom"; "dd"; "e"] ->
       Main.post_embeddings Toy.settings p Toy.s0
       = ({| Main.status_code := 500;
             Main.body := Main.JsonDetail
               ("Failed to generate embeddings: " ++ cause)%string |}, s2)).
Proof.
  apply (inference_failure_is_atomic (L := Toy.lib) Toy.settings
           ["a"; "bb"; "boom"; "dd"; "e"] None true None Toy.s0 Toy.s_mini "mini").
  - discriminate.
  - reflexivity.
  - reflexivity.
  - reflexivity.
  - apply Exists_cons_tl, Exists_cons_hd. exists "inference failed". reflexivity.
Defined.

(* ===================================================================== *)
(** ** More on the lifecycle: swapping, failing, reloading *)
(* ===================================================================== *)

Section LifecycleMore.
Context {L : Library} (settings : Config.Settings).

(** the state a successful fetch leaves *)
Lemma fetch_succeeds (name : string) (h : handle L) (s : State L) :
  load_succeeds L name h ->
  exists s',
    fetch name s = (Ok tt, s') /\
    model s' = Some h /\
    Rt.model_name s' = Some name /\
    calls s' = calls s ++ fetch_calls name h.
Proof.
  intros (Hc & He & Ht). unfold fetch, fetch_calls. unfold_monad.
  rewrite Hc. simpl. rewrite He. simpl.
  destruct (has_to L h) eqn:Hhas.
  - rewrite (Ht eq_refl). simpl. eexists. split; [reflexivity|]. simpl.
    repeat split. now rewrite <- !app_assoc.
  - eexists. split; [reflexivity|]. simpl.
    repeat split. now rewrite <- !app_assoc.
Qed.

(** a fetch starts with the constructor call *)
Lemma fetch_starts_with_constructor (name : string) (s : State L) :
  exists rest,
    calls (snd (fetch name s)) = calls s ++ CallSentenceTransformer name :: rest.
Proof.
  unfold fetch. unfold_monad.
  destruct (SentenceTransformer L name) as [msg|h]; simpl.
  - now exists [].
  - destruct (eval L h) as [msg|]; simpl.
    + exists [CallEval]. now rewrite <- app_assoc.
    + destruct (has_to L h); [destruct (to L h) as [msg|]|]; simpl.
      * exists [CallEval; CallTo]. now rewrite <- !app_assoc.
      * exists [CallEval; CallTo]. now rewrite <- !app_assoc.
      * exists [CallEval]. now rewrite <- !app_assoc.
Qed.

(** what a load that returned has established *)
Lemma load_model_returned (name : option string) (s s1 : State L) :
  EmbeddingService.load_model settings name s = (Ok tt, s1) ->
  is_not_None (model s1) = true /\
  Rt.model_name s1 = Some (resolve settings name).
Proof.
  intros Hload.
  destruct (load_model_cases settings name s)
    as [(s' & Hs' & Hm & Hn)|(cause & s' & Hs' & _)];
    rewrite Hload in Hs'; [|discriminate].
  injection Hs' as <-. now split.
Qed.

(** what a load that raised has raised *)
Lemma load_model_raised (name : option string) (e : exn) (s s1 : State L) :
  EmbeddingService.load_model settings name s = (Raise e, s1) ->
  exists cause,
    e = RuntimeError
          ("Failed to load model " ++ resolve settings name ++ ": " ++ cause)%string /\
    load_fails L (resolve settings name) cause.
Proof.
  intros Hload.
  destruct (load_model_cases settings name s)
    as [(s' & Hs' & _)|(cause & s' & Hs' & Hfail & _)];
    rewrite Hload in Hs'; [discriminate|].
  injection Hs' as -> _. now exists cause.
Qed.

(** X8. Loading an identifier that is not the resident one, when the library
    fetches and initialises it: the new model takes the place of whatever was
    resident, under the resolved identifier, after exactly one constructor
    call, one [eval()] and, if the object has it, one [to()], in that
    order. *)
Theorem load_model_replaces_resident (name : option string) (h : handle L)
  (s : State L) :
  opt_str_eqb (Rt.model_name s) (Some (resolve settings name))
    && is_not_None (model s) = false ->
  load_succeeds L (resolve settings name) h ->
  exists s',
    EmbeddingService.load_model settings name s = (Ok tt, s') /\
    model s' = Some h /\
    Rt.model_name s' = Some (resolve settings name) /\
    calls s' = calls s ++ fetch_calls (resolve settings name) h /\
    EmbeddingService.is_model_loaded s' = (Ok true, s').
Proof.
  intros Hfresh Hok.
  destruct (fetch_succeeds (resolve settings name) h s Hok)
    as (s' & Hrun & Hm & Hn & Hcalls).
  exists s'. rewrite (load_model_fetches settings name s Hfresh).
  repeat split; try assumption.
  unfold EmbeddingService.is_model_loaded. unfold_monad. now rewrite Hm.
Qed.

(** X9. When the constructor raises, the load raises and the service keeps the
    model and the identifier it had: what was resident stays resident. *)
Theorem constructor_failure_keeps_resident (name : option string)
  (cause : string) (s : State L) :
  opt_str_eqb (Rt.model_name s) (Some (resolve settings name))
    && is_not_None (model s) = false ->
  SentenceTransformer L (resolve settings name) = inl cause ->
  exists s',
    EmbeddingService.load_model settings name s
    = (Raise (RuntimeError
         ("Failed to load model " ++ resolve settings name ++ ": " ++ cause)%string),
       s') /\
    model s' = model s /\
    Rt.model_name s' = Rt.model_name s /\
    calls s' = calls s ++ [CallSentenceTransformer (resolve settings name)].
Proof.
  intros Hfresh Hc. rewrite (load_model_fetches settings name s Hfresh).
  unfold fetch. unfold_monad. rewrite Hc. simpl.
  eexists. split; [reflexivity|]. now repeat split.
Qed.

(** X10. When the constructor returns but [eval()] or [to()] raises, the load
    raises with the new object already stored: the service is left holding
    the new model under the identifier of the old one.  In a state the
    service has reached, a later load of that old identifier then returns at
    once, without fetching, although the resident object is the new one. *)
Theorem initialisation_failure_leaves_new_model_under_old_name
  (name : option string) (cause : string) (h' : handle L) (s : State L) :
  reachable settings s ->
  opt_str_eqb (Rt.model_name s) (Some (resolve settings name))
    && is_not_None (model s) = false ->
  SentenceTransformer L (resolve settings name) = inr h' ->
  load_fails L (resolve settings name) cause ->
  exists s',
    EmbeddingService.load_model settings name s
    = (Raise (RuntimeError
         ("Failed to load model " ++ resolve settings name ++ ": " ++ cause)%string),
       s') /\
    model s' = Some h' /\
    Rt.model_name s' = Rt.model_name s /\
    EmbeddingService.is_model_loaded s' = (Ok true, s') /\
    (forall m, Rt.model_name s = Some m ->
       EmbeddingService.load_model settings (Some m) s' = (Ok tt, s')).
Proof.
  intros Hreach Hfresh Hc Hfail.
  assert (Hrun : exists s',
    fetch (resolve settings name) s
    = (Raise (RuntimeError
         ("Failed to load model " ++ resolve settings name ++ ": " ++ cause)%string),
       s') /\ model s' = Some h' /\ Rt.model_name s' = Rt.model_name s).
  { unfold fetch. unfold_monad. rewrite Hc. simpl.
    destruct Hfail as [Hc'|h Hc' He|h Hc' He Ht Hto]; rewrite Hc in Hc';
      [discriminate| |]; injection Hc' as <-; rewrite He; simpl.
    - eexists. split; [reflexivity|]. now split.
    - rewrite Ht, Hto. simpl. eexists. split; [reflexivity|]. now split. }
  destruct Hrun as (s' & Hrun & Hm & Hn).
  exists s'. rewrite (load_model_fetches settings name s Hfresh).
  split; [exact Hrun|]. split; [exact Hm|]. split; [exact Hn|]. split.
  - unfold EmbeddingService.is_model_loaded. unfold_monad. now rewrite Hm.
  - intros m Hname. apply load_model_resident with h'; [exact Hm|].
    rewrite Hn, Hname. f_equal. symmetry.
    exact (reachable_name_resolved settings s Hreach m Hname).
Qed.

(** X11. After [unload_model], a load fetches again whatever was resident before:
    it always starts with a constructor call for the resolved identifier. *)
Theorem unload_then_load_fetches_again (name : option string) (s : State L) :
  exists rest,
    calls (snd (EmbeddingService.load_model settings name
                  (snd (EmbeddingService.unload_model s))))
    = calls (snd (EmbeddingService.unload_model s))
      ++ CallSentenceTransformer (resolve settings name) :: rest.
Proof.
  destruct (unload_model_returns s) as (s' & Hrun & Hnone & _).
  rewrite Hrun. simpl.
  rewrite load_model_fetches.
  - apply fetch_starts_with_constructor.
  - rewrite Hnone. simpl. apply andb_false_r.
Qed.

End LifecycleMore.

Lemma load_model_replaces_resident_witness :
  exists s',
    EmbeddingService.load_model Toy.settings (Some "other") Toy.s_mini = (Ok tt, s') /\
    model s' = Some "other" /\
    Rt.model_name s' = Some "other" /\
    calls s' = calls Toy.s_mini
               ++ [CallSentenceTransformer "other"; CallEval; CallTo] /\
    EmbeddingService.is_model_loaded s' = (Ok true, s').
Proof.
  apply (load_model_replaces_resident (L := Toy.lib) Toy.settings (Some "other")
           "other" Toy.s_mini).
  - reflexivity.
  - repeat split.
Defined.

Lemma constructor_failure_keeps_resident_witness :
  exists s',
    EmbeddingService.load_model Toy.settings (Some "missing") Toy.s_mini
    = (Raise (RuntimeError "Failed to load model missing: no such model"), s') /\
    model s' = Some "mini" /\
    Rt.model_name s' = Some "mini" /\
    calls s' = calls Toy.s_mini ++ [CallSentenceTransformer "missing"].
Proof.
  apply (constructor_failure_keeps_resident (L := Toy.lib) Toy.settings
           (Some "missing") "no such model" Toy.s_mini).
  - reflexivity.
  - reflexivity.
Defined.

Lemma initialisation_failure_leaves_new_model_under_old_name_witness :
  exists s',
    EmbeddingService.load_model Toy.settings (Some "broken") Toy.s_mini
    = (Raise (RuntimeError "Failed to load model broken: eval failed"), s') /\
    model s' = Some "broken" /\
    Rt.model_name s' = Some "mini" /\
    EmbeddingService.is_model_loaded s' = (Ok true, s') /\
    (forall m, Some "mini" = Some m ->
       EmbeddingService.load_model Toy.settings (Some m) s' = (Ok tt, s')).
Proof.
  apply (initialisation_failure_leaves_new_model_under_old_name (L := Toy.lib)
           Toy.settings (Some "broken") "eval failed" "broken" Toy.s_mini).
  - exact (reach_load Toy.settings Toy.s0 None (reach_init Toy.settings 100)).
  - reflexivity.
  - reflexivity.
  - apply fails_in_eval with "broken"; reflexivity.
Defined.

(* ===================================================================== *)
(** ** More on the inference runner *)
(* ===================================================================== *)

Section RunnerMore.
Context {L : Library} (settings : Config.Settings).

Local Abbreviation effective bs := (Py.or_int bs (Config.max_batch_size settings)).
Local Abbreviation limit := (Config.max_sequence_length settings).

(** the outcome of a call whose load returns and whose chunks are all
    encoded *)
Lemma generate_embeddings_returns (texts : list string) (name : option string)
  (normalize : bool) (bs : option Z) (s s1 : State L) (h : handle L)
  (chunks : list (list string)) :
  texts <> [] ->
  EmbeddingService.load_model settings name s = (Ok tt, s1) ->
  model s1 = Some h ->
  batches texts (effective bs) = Some chunks ->
  all_encoded h normalize chunks ->
  EmbeddingService.generate_embeddings settings texts name normalize bs s
  = (Ok (flat_map (encoded h normalize) chunks,
         total_duration h (encode_calls normalize chunks)),
     run_calls h (encode_calls normalize chunks) s1).
Proof.
  intros Hne Hload Hm Hchunks Henc. unfold batches in Hchunks.
  destruct (Py.range 0 (Py.len texts) (effective bs)) as [idx|] eqn:Hrange;
    [|discriminate].
  injection Hchunks as <-.
  assert (Hall : Forall (succeeds h texts (effective bs) normalize) idx).
  { apply Forall_forall. intros i Hi. apply Henc. now apply in_map. }
  rewrite generate_embeddings_stages by exact Hne.
  rewrite Hload, Hm, Hrange, (batch_loop_ok _ _ _ _ _ _ _ Hall).
  unfold encode_calls. rewrite map_map. fold (encode_call texts (effective bs) normalize).
  rewrite run_calls_clock, flat_map_batches, Z.add_simpl_l. reflexivity.
Qed.

(** a batch size that covers the whole list gives one chunk: the list *)
Lemma batches_single (texts : list string) (b : Z) :
  texts <> [] -> Py.len texts <= b -> batches texts b = Some [texts].
Proof.
  intros Hne Hb.
  assert (Hn : 0 < Py.len texts).
  { unfold Py.len. destruct texts; [congruence|simpl; lia]. }
  rewrite batches_positive by lia.
  assert (Hcnt : Py.range_len 0 (Py.len texts) b = 1).
  { unfold Py.range_len.
    destruct (Z.ltb_spec 0 b); [|lia].
    destruct (Z.ltb_spec 0 (Py.len texts)); [|lia].
    rewrite Z.div_small by lia. reflexivity. }
  rewrite Hcnt. simpl. rewrite firstn_all2; [reflexivity|].
  unfold Py.len in Hb. lia.
Qed.

(** X3. With a batch size at least the number of texts, the whole list goes to
    the library in a single inference call, and the result is what that call
    returns. *)
Theorem covering_batch_size_makes_one_call (texts : list string)
  (name : option string) (normalize : bool) (bs : option Z)
  (s s1 : State L) (h : handle L) (vs : list (list (float L))) :
  texts <> [] ->
  Py.len texts <= effective bs ->
  EmbeddingService.load_model settings name s = (Ok tt, s1) ->
  model s1 = Some h ->
  encode L h texts normalize = inr vs ->
  batches texts (effective bs) = Some [texts] /\
  EmbeddingService.generate_embeddings settings texts name normalize bs s
  = (Ok (vs, duration L (Some h) (CallEncode texts normalize)),
     after_call (Some h) (CallEncode texts normalize) s1).
Proof.
  intros Hne Hb Hload Hm Henc.
  pose proof (batches_single texts (effective bs) Hne Hb) as Hone.
  split; [exact Hone|].
  rewrite (generate_embeddings_returns texts name normalize bs s s1 h [texts]
             Hne Hload Hm Hone).
  - simpl. unfold encoded. rewrite Henc, app_nil_r, Z.add_0_r. reflexivity.
  - intros c [<-|[]]. now exists vs.
Qed.

(** X2. When the library embeds text by text (on every list made of the given
    texts), the embeddings do not depend on the batch size: any two positive
    effective batch sizes give the same list, the embedding of each text in
    input order. *)
Theorem batch_size_does_not_change_embeddings (texts : list string)
  (name : option string) (normalize : bool) (bs bs' : option Z)
  (s s1 : State L) (h : handle L) (f : string -> list (float L)) :
  texts <> [] ->
  0 < effective bs ->
  0 < effective bs' ->
  EmbeddingService.load_model settings name s = (Ok tt, s1) ->
  model s1 = Some h ->
  (forall c, incl c texts -> encode L h c normalize = inr (map f c)) ->
  exists elapsed elapsed' s2 s2',
    EmbeddingService.generate_embeddings settings texts name normalize bs s
    = (Ok (map f texts, elapsed), s2) /\
    EmbeddingService.generate_embeddings settings texts name normalize bs' s
    = (Ok (map f texts, elapsed'), s2').
Proof.
  intros Hne Hb Hb' Hload Hm Hf.
  assert (Hone : forall b, 0 < effective b ->
    exists elapsed s2,
      EmbeddingService.generate_embeddings settings texts name normalize b s
      = (Ok (map f texts, elapsed), s2)).
  { intros b Hpos.
    destruct (batches_partition texts (effective b) Hpos Hne)
      as (chunks & Hchunks & Hcat & _).
    assert (Hin : forall c, In c chunks -> incl c texts).
    { intros c Hc t Ht. rewrite <- Hcat. apply in_concat. now exists c. }
    do 2 eexists.
    rewrite (generate_embeddings_returns texts name normalize b s s1 h chunks
               Hne Hload Hm Hchunks).
    - rewrite (flat_map_encoded_pointwise h normalize f chunks), Hcat;
        [reflexivity|]. intros c Hc. apply Hf, Hin, Hc.
    - intros c Hc. exists (map f c). apply Hf, Hin, Hc. }
  destruct (Hone bs Hb) as (t & s2 & Hrun).
  destruct (Hone bs' Hb') as (t' & s2' & Hrun').
  now exists t, t', s2, s2'.
Qed.

(** X4. With no usable batch size at all (none or 0 from the caller and a
    configured [max_batch_size] of 0), a call on a non-empty list loads the
    model and then raises: [range] refuses the zero step, and the error is
    reported as a failed generation.  No inference call is made. *)
Theorem zero_batch_size_raises (texts : list string) (name : option string)
  (normalize : bool) (bs : option Z) (s s1 : State L) :
  texts <> [] ->
  effective bs = 0 ->
  EmbeddingService.load_model settings name s = (Ok tt, s1) ->
  batches texts (effective bs) = None /\
  EmbeddingService.generate_embeddings settings texts name normalize bs s
  = (Raise (RuntimeError
       "Failed to generate embeddings: range() arg 3 must not be zero"), s1) /\
  inference_calls (calls s1) = inference_calls (calls s).
Proof.
  intros Hne Hzero Hload.
  destruct (load_model_returned settings name s s1 Hload) as (Hm & _).
  rewrite Hzero. split; [reflexivity|]. split.
  - rewrite generate_embeddings_stages by exact Hne.
    rewrite Hload, Hzero.
    destruct (model s1) as [h|]; [reflexivity|discriminate].
  - pose proof (load_model_no_inference settings name s) as Hno.
    now rewrite Hload in Hno.
Qed.

(** X5. When the load at the start of [generate_embeddings] raises, the call
    raises that very error, a [RuntimeError] "Failed to load model ..." that
    is not wrapped a second time; no inference call is made, and
    POST /embeddings answers 500 with the load error as detail. *)
Theorem load_failure_stops_generation (texts : list string)
  (name : option string) (normalize : bool) (bs : option Z) (e : exn)
  (s s1 : State L) :
  texts <> [] ->
  EmbeddingService.load_model settings name s = (Raise e, s1) ->
  EmbeddingService.generate_embeddings settings texts name normalize bs s
  = (Raise e, s1) /\
  inference_calls (calls s1) = inference_calls (calls s) /\
  (exists cause,
     load_fails L (resolve settings name) cause /\
     e = RuntimeError
           ("Failed to load model " ++ resolve settings name ++ ": " ++ cause)%string /\
     forall p,
       Models.EmbeddingRequest_validate p
       = Some {| Models.texts := texts; Models.model_name := name;
                 Models.normalize := normalize; Models.batch_size := bs |} ->
       Forall (fun t => Py.strlen t <= limit) texts ->
       Main.post_embeddings settings p s
       = ({| Main.status_code := 500;
             Main.body := Main.JsonDetail
               ("Failed to load model " ++ resolve settings name ++ ": "
                ++ cause)%string |}, s1)).
Proof.
  intros Hne Hload.
  assert (Hrun :
    EmbeddingService.generate_embeddings settings texts name normalize bs s
    = (Raise e, s1)).
  { rewrite generate_embeddings_stages by exact Hne. now rewrite Hload. }
  split; [exact Hrun|]. split.
  - pose proof (load_model_no_inference settings name s) as Hno.
    now rewrite Hload in Hno.
  - destruct (load_model_raised settings name e s s1 Hload) as (cause & -> & Hfail).
    exists cause. split; [exact Hfail|]. split; [reflexivity|].
    intros p Hvalid Hlen.
    now apply post_embeddings_service_raises with
      {| Models.texts := texts; Models.model_name := name;
         Models.normalize := normalize; Models.batch_size := bs |}.
Qed.

(** everything [generate_embeddings] can raise *)
Lemma generate_embeddings_raised (texts : list string) (name : option string)
  (normalize : bool) (bs : option Z) (e : exn) (s s' : State L) :
  EmbeddingService.generate_embeddings settings texts name normalize bs s
  = (Raise e, s') ->
  (texts = [] /\ e = ValueError "Texts list cannot be empty" /\ s' = s) \/
  (texts <> [] /\ exists msg, e = RuntimeError msg).
Proof.
  intros Hrun. destruct texts as [|t texts].
  - left. injection Hrun as <- <-. now repeat split.
  - right. split; [discriminate|].
    rewrite generate_embeddings_stages in Hrun by discriminate.
    set (txs := t :: texts) in *.
    destruct (EmbeddingService.load_model settings name s) as [[[]|e1] s1] eqn:Hload.
    + destruct (model s1) as [h|]; [|injection Hrun as <- _; now eexists].
      destruct (Py.range 0 (Py.len txs) (effective bs)) as [idx|];
        [|injection Hrun as <- _; now eexists].
      destruct (EmbeddingService.batch_loop h txs normalize (effective bs) idx [] s1)
        as [[embs|e2] s2]; [discriminate|].
      injection Hrun as <- _. now eexists.
    + injection Hrun as <- _.
      destruct (load_model_raised settings name e1 s s1 Hload) as (cause & -> & _).
      now eexists.
Qed.

(** X6. The only errors that leave [generate_embeddings] are the [ValueError] for
    an empty list, raised before the state is touched, and [RuntimeError];
    the only error that leaves [load_model] is a [RuntimeError] whose message
    starts with "Failed to load model" and names the resolved identifier. *)
Theorem service_raises_only_value_and_runtime_errors (texts : list string)
  (name : option string) (normalize : bool) (bs : option Z) (s : State L) :
  (forall e s',
     EmbeddingService.generate_embeddings settings texts name normalize bs s
     = (Raise e, s') ->
     (texts = [] /\ e = ValueError "Texts list cannot be empty" /\ s' = s) \/
     (texts <> [] /\ exists msg, e = RuntimeError msg)) /\
  (forall e s',
     EmbeddingService.load_model settings name s = (Raise e, s') ->
     exists cause,
       e = RuntimeError
             ("Failed to load model " ++ resolve settings name ++ ": " ++ cause)%string).
Proof.
  split.
  - intros e s'. apply generate_embeddings_raised.
  - intros e s' Hload.
    destruct (load_model_raised settings name e s s' Hload) as (cause & He & _).
    now exists cause.
Qed.

(** X7. Once a call of [generate_embeddings] has returned, a further call that
    names the same model fetches nothing: whatever its texts, flags and
    batch size, and whether it returns or raises, it adds no constructor,
    [eval()] or [to()] call. *)
Theorem same_model_is_not_loaded_twice (texts texts' : list string)
  (name : option string) (normalize normalize' : bool) (bs bs' : option Z)
  (s s2 : State L) (embs : list (list (float L))) (elapsed : Z) :
  EmbeddingService.generate_embeddings settings texts name normalize bs s
  = (Ok (embs, elapsed), s2) ->
  load_calls
    (calls (snd (EmbeddingService.generate_embeddings settings texts' name
                   normalize' bs' s2)))
  = load_calls (calls s2).
Proof.
  intros Hrun.
  assert (Hres : exists h, model s2 = Some h /\
                           Rt.model_name s2 = Some (resolve settings name)).
  { destruct texts as [|t texts]; [discriminate|].
    rewrite generate_embeddings_stages in Hrun by discriminate.
    set (txs := t :: texts) in *.
    destruct (EmbeddingService.load_model settings name s) as [[[]|e1] s1] eqn:Hload;
      [|discriminate].
    destruct (load_model_returned settings name s s1 Hload) as (_ & Hn).
    destruct (model s1) as [h|] eqn:Hm; [|discriminate].
    destruct (Py.range 0 (Py.len txs) (effective bs)) as [idx|]; [|discriminate].
    pose proof (batch_loop_frame h txs normalize (effective bs) idx [] s1)
      as (Hm2 & Hn2 & _).
    destruct (EmbeddingService.batch_loop h txs normalize (effective bs) idx [] s1)
      as [[embs'|e2] s2']; [|discriminate].
    injection Hrun as _ _ <-. simpl in Hm2, Hn2.
    exists h. split; congruence. }
  destruct Hres as (h & Hm & Hn).
  destruct texts' as [|t texts']; [reflexivity|].
  rewrite generate_embeddings_stages by discriminate.
  set (txs := t :: texts').
  rewrite (load_model_resident settings name s2 h Hm Hn), Hm.
  destruct (Py.range 0 (Py.len txs) (effective bs')) as [idx|]; [|reflexivity].
  pose proof (batch_loop_frame h txs normalize' (effective bs') idx [] s2)
    as (_ & _ & Hload).
  destruct (EmbeddingService.batch_loop h txs normalize' (effective bs') idx [] s2)
    as [[embs'|e2] s3]; exact Hload.
Qed.

End RunnerMore.

Lemma covering_batch_size_makes_one_call_witness :
  batches Toy.five (Py.or_int (Some 10) 2) = Some [Toy.five] /\
  EmbeddingService.generate_embeddings Toy.settings Toy.five None true (Some 10)
    Toy.s0
  = (Ok ([[1; 1]; [2; 1]; [3; 1]; [2; 1]; [1; 1]],
         duration Toy.lib (Some "mini") (CallEncode Toy.five true)),
     @after_call Toy.lib (Some "mini") (CallEncode Toy.five true) Toy.s_mini).
Proof.
  apply (covering_batch_size_makes_one_call (L := Toy.lib) Toy.settings Toy.five
           None true (Some 10) Toy.s0 Toy.s_mini "mini").
  - discriminate.
  - vm_compute. discriminate.
  - reflexivity.
  - reflexivity.
  - reflexivity.
Defined.

Lemma batch_size_does_not_change_embeddings_witness :
  exists elapsed elapsed' s2 s2',
    EmbeddingService.generate_embeddings Toy.settings Toy.five None true (Some 2)
      Toy.s0
    = (Ok (map (fun t => [Py.strlen t; 1]) Toy.five, elapsed), s2) /\
    EmbeddingService.generate_embeddings Toy.settings Toy.five None true (Some 3)
      Toy.s0
    = (Ok (map (fun t => [Py.strlen t; 1]) Toy.five, elapsed'), s2').
Proof.
  apply (batch_size_does_not_change_embeddings (L := Toy.lib) Toy.settings
           Toy.five None true (Some 2) (Some 3) Toy.s0 Toy.s_mini "mini").
  - discriminate.
  - reflexivity.
  - reflexivity.
  - reflexivity.
  - reflexivity.
  - intros c Hc.
    assert (Hno : existsb (String.eqb "boom") c = false).
    { induction c as [|t c IH]; [reflexivity|]. cbn [existsb].
      rewrite IH by (intros x Hx; apply Hc; now right).
      destruct (Hc t (or_introl eq_refl)) as [<-|[<-|[<-|[<-|[<-|[]]]]]];
        reflexivity. }
    cbn [encode Toy.lib]. now rewrite Hno.
Defined.

Lemma zero_batch_size_raises_witness :
  batches Toy.five (Py.or_int (Some 0) 0) = None /\
  EmbeddingService.generate_embeddings Scenario.zero_batch Toy.five None true
    (Some 0) Toy.s0
  = (Raise (RuntimeError
       "Failed to generate embeddings: range() arg 3 must not be zero"),
     Toy.s_mini) /\
  inference_calls (calls Toy.s_mini) = inference_calls (calls Toy.s0).
Proof.
  apply (zero_batch_size_raises (L := Toy.lib) Scenario.zero_batch Toy.five None
           true (Some 0) Toy.s0 Toy.s_mini).
  - discriminate.
  - reflexivity.
  - reflexivity.
Defined.

Lemma load_failure_stops_generation_witness :
  EmbeddingService.generate_embeddings Toy.settings Toy.five (Some "missing")
    true None Toy.s0
  = (Raise (RuntimeError "Failed to load model missing: no such model"),
     @after_call Toy.lib None (CallSentenceTransformer "missing") Toy.s0) /\
  inference_calls
    (calls (@after_call Toy.lib None (CallSentenceTransformer "missing") Toy.s0))
  = inference_calls (calls Toy.s0) /\
  (exists cause,
     load_fails Toy.lib "missing" cause /\
     RuntimeError "Failed to load model missing: no such model"
     = RuntimeError ("Failed to load model missing: " ++ cause)%string /\
     forall p,
       Models.EmbeddingRequest_validate p
       = Some {| Models.texts := Toy.five; Models.model_name := Some "missing";
                 Models.normalize := true; Models.batch_size := None |} ->
       Forall (fun t => Py.strlen t <= 5) Toy.five ->
       Main.post_embeddings Toy.settings p Toy.s0
       = ({| Main.status_code := 500;
             Main.body := Main.JsonDetail
               ("Failed to load model missing: " ++ cause)%string |},
          @after_call Toy.lib None (CallSentenceTransformer "missing") Toy.s0)).
Proof.
  apply (load_failure_stops_generation (L := Toy.lib) Toy.settings Toy.five
           (Some "missing") true None
           (RuntimeError "Failed to load model missing: no such model") Toy.s0).
  - discriminate.
  - reflexivity.
Defined.

Lemma service_raises_only_value_and_runtime_errors_witness :
  ([] = ([] : list string) /\
   ValueError "Texts list cannot be empty" = ValueError "Texts list cannot be empty" /\
   Toy.s0 = Toy.s0) \/
  (([] : list string) <> [] /\
   exists msg, ValueError "Texts list cannot be empty" = RuntimeError msg).
Proof.
  apply (proj1 (service_raises_only_value_and_runtime_errors (L := Toy.lib)
                  Toy.settings [] None true None Toy.s0)
           (ValueError "Texts list cannot be empty") Toy.s0).
  reflexivity.
Defined.

Lemma same_model_is_not_loaded_twice_witness :
  load_calls
    (calls (snd (EmbeddingService.generate_embeddings Toy.settings ["x"; "boom"]
                   None false (Some 1)
                   (snd (EmbeddingService.generate_embeddings Toy.settings
                           Toy.five None true None Toy.s0)))))
  = load_calls
      (calls (snd (EmbeddingService.generate_embeddings Toy.settings Toy.five
                     None true None Toy.s0))).
Proof.
  apply (same_model_is_not_loaded_twice (L := Toy.lib) Toy.settings Toy.five
           ["x"; "boom"] None true false None (Some 1) Toy.s0 _
           [[1; 1]; [2; 1]; [3; 1]; [2; 1]; [1; 1]] 5).
  reflexivity.
Defined.

(* ===================================================================== *)
(** ** More on the HTTP surface *)
(* ===================================================================== *)

Section SurfaceMore.
Context {L : Library} (settings : Config.Settings).

Local Abbreviation effective bs := (Py.or_int bs (Config.max_batch_size settings)).
Local Abbreviation limit := (Config.max_sequence_length settings).

(** inference calls leave the resident model and its identifier alone *)
Lemma run_calls_model_name (h : handle L) (cs : list Call) (s : State L) :
  model (run_calls h cs s) = model s /\
  Rt.model_name (run_calls h cs s) = Rt.model_name s.
Proof.
  revert s. induction cs as [|c cs IH]; intros s; simpl; [now split|].
  destruct (IH (after_call (Some h) c s)) as [-> ->]. now split.
Qed.

(** the record of a resident model whose dimensionality resolves *)
Lemma get_model_info_resolved (s : State L) (h : handle L) (d : option Z)
  (c : Call) :
  model s = Some h ->
  info_resolves L h d c ->
  c = info_call h /\
  EmbeddingService.get_model_info settings s
  = (Ok {| EmbeddingService.d_model_name := Rt.model_name s;
           EmbeddingService.d_model_type := Some "sentence-transformer";
           EmbeddingService.d_max_sequence_length :=
             Some (reported_max_length settings h);
           EmbeddingService.d_embedding_dimensions := d;
           EmbeddingService.d_is_loaded := true |},
     after_call (Some h) c s).
Proof.
  intros Hm Hres. unfold EmbeddingService.get_model_info, info_call.
  unfold bind at 1. unfold get at 1. rewrite Hm. unfold_monad.
  destruct Hres as [d Hhas Hget|v vs Hhas Henc]; rewrite Hhas.
  - now rewrite Hget.
  - now rewrite Henc.
Qed.

(** the record of a resident model whose dimensionality does not resolve *)
Lemma get_model_info_degraded (s : State L) (h : handle L) :
  model s = Some h ->
  info_fails L h ->
  EmbeddingService.get_model_info settings s
  = (Ok {| EmbeddingService.d_model_name := Rt.model_name s;
           EmbeddingService.d_model_type := Some "sentence-transformer";
           EmbeddingService.d_max_sequence_length := Some limit;
           EmbeddingService.d_embedding_dimensions := None;
           EmbeddingService.d_is_loaded := false |},
     after_call (Some h) (info_call h) s).
Proof.
  intros Hm Hfail. unfold EmbeddingService.get_model_info, info_call.
  unfold bind at 1. unfold get at 1. rewrite Hm. unfold_monad.
  destruct Hfail as [msg Hhas Hget|msg Hhas Henc|Hhas Henc]; rewrite Hhas.
  - now rewrite Hget.
  - now rewrite Henc.
  - now rewrite Henc.
Qed.

(** what the route answers once the service call has returned: the answer
    is built from the record [get_model_info] gives afterwards *)
Lemma post_embeddings_after_inference (p : Models.Payload)
  (request : Models.EmbeddingRequest) (embs : list (list (float L)))
  (elapsed : Z) (d : EmbeddingService.InfoDict) (s s2 s3 : State L) :
  Models.EmbeddingRequest_validate p = Some request ->
  Forall (fun t => Py.strlen t <= limit) (Models.texts request) ->
  EmbeddingService.generate_embeddings settings (Models.texts request)
    (Models.model_name request) (Models.normalize request)
    (Models.batch_size request) s = (Ok (embs, elapsed), s2) ->
  EmbeddingService.get_model_info settings s2 = (Ok d, s3) ->
  Main.post_embeddings settings p s
  = match EmbeddingService.d_model_name d,
          EmbeddingService.d_embedding_dimensions d with
    | Some n, Some k =>
        ({| Main.status_code := 200;
            Main.body := Main.JsonEmbeddings
              {| Models.embeddings := embs;
                 Models.r_model_name := n;
                 Models.dimensions := k;
                 Models.processing_time := elapsed;
                 Models.total_texts := Py.len (Models.texts request) |} |}, s3)
    | _, _ =>
        ({| Main.status_code := 500;
            Main.body := Main.JsonDetail (pydantic_error L) |}, s3)
    end.
Proof.
  intros Hvalid Hlen Hrun Hinfo. unfold Main.post_embeddings. rewrite Hvalid.
  unfold Main.serve, Main.generate_embeddings, Main.http_guard.
  unfold try_except, bind at 1.
  rewrite (check_text_lengths_pass settings 0 _ s Hlen).
  unfold bind at 1. rewrite Hrun. unfold bind at 1. rewrite Hinfo.
  unfold Models.make_EmbeddingResponse. unfold_monad.
  destruct (EmbeddingService.d_model_name d) as [n|];
    [destruct (EmbeddingService.d_embedding_dimensions d) as [k|]|];
    reflexivity.
Qed.

(** X12. The successful answer of POST /embeddings: status 200; the embeddings
    are the per-chunk outputs in order; [model_name] is the requested
    identifier, or the default one when none (or an empty one) was given;
    [dimensions] is what the model reports; [processing_time] is the time
    of the inference calls; [total_texts] is the number of texts sent. *)
Theorem post_embeddings_success (p : Models.Payload)
  (request : Models.EmbeddingRequest) (s s1 : State L) (h : handle L)
  (chunks : list (list string)) (k : Z) (c : Call) :
  Models.EmbeddingRequest_validate p = Some request ->
  Forall (fun t => Py.strlen t <= limit) (Models.texts request) ->
  EmbeddingService.load_model settings (Models.model_name request) s = (Ok tt, s1) ->
  model s1 = Some h ->
  batches (Models.texts request) (effective (Models.batch_size request))
    = Some chunks ->
  all_encoded h (Models.normalize request) chunks ->
  info_resolves L h (Some k) c ->
  Main.post_embeddings settings p s
  = ({| Main.status_code := 200;
        Main.body := Main.JsonEmbeddings
          {| Models.embeddings :=
               flat_map (encoded h (Models.normalize request)) chunks;
             Models.r_model_name := resolve settings (Models.model_name request);
             Models.dimensions := k;
             Models.processing_time :=
               total_duration h (encode_calls (Models.normalize request) chunks);
             Models.total_texts := Py.len (Models.p_texts p) |} |},
     after_call (Some h) c
       (run_calls h (encode_calls (Models.normalize request) chunks) s1)).
Proof.
  intros Hvalid Hlen Hload Hm Hchunks Henc Hres.
  assert (Hne : Models.texts request <> []).
  { unfold Models.EmbeddingRequest_validate in Hvalid.
    destruct (Z.leb_spec 1 (Py.len (Models.p_texts p))); [|discriminate].
    destruct (Py.len (Models.p_texts p) <=? 100); [|discriminate].
    injection Hvalid as <-. simpl. intros Hnil. rewrite Hnil in *.
    unfold Py.len in *. simpl in *. lia. }
  assert (Htexts : Models.texts request = Models.p_texts p).
  { unfold Models.EmbeddingRequest_validate in Hvalid.
    destruct ((1 <=? Py.len (Models.p_texts p))
              && (Py.len (Models.p_texts p) <=? 100)); [|discriminate].
    now injection Hvalid as <-. }
  pose proof (generate_embeddings_returns settings _ _ _ _ s s1 h chunks
                Hne Hload Hm Hchunks Henc) as Hrun.
  set (s2 := run_calls h (encode_calls (Models.normalize request) chunks) s1) in *.
  assert (Hm2 : model s2 = Some h).
  { subst s2. destruct (run_calls_model_name h
      (encode_calls (Models.normalize request) chunks) s1) as [-> _]. exact Hm. }
  assert (Hn2 : Rt.model_name s2 = Some (resolve settings (Models.model_name request))).
  { subst s2. destruct (run_calls_model_name h
      (encode_calls (Models.normalize request) chunks) s1) as [_ ->].
    now destruct (load_model_returned settings _ s s1 Hload). }
  destruct (get_model_info_resolved s2 h (Some k) c Hm2 Hres) as (_ & Hinfo).
  rewrite (post_embeddings_after_inference p request _ _ _ s s2 _
             Hvalid Hlen Hrun Hinfo).
  simpl. rewrite Hn2, Htexts. reflexivity.
Qed.

(** X13. When the inference has gone through but the dimensionality of the model
    cannot be resolved afterwards, POST /embeddings answers 500: the record
    has no dimensions, the response model refuses it, and the embeddings
    that were computed are not sent. *)
Theorem unresolved_dimensions_discard_embeddings (p : Models.Payload)
  (request : Models.EmbeddingRequest) (s s1 : State L) (h : handle L)
  (chunks : list (list string)) :
  Models.EmbeddingRequest_validate p = Some request ->
  Forall (fun t => Py.strlen t <= limit) (Models.texts request) ->
  EmbeddingService.load_model settings (Models.model_name request) s = (Ok tt, s1) ->
  model s1 = Some h ->
  batches (Models.texts request) (effective (Models.batch_size request))
    = Some chunks ->
  all_encoded h (Models.normalize request) chunks ->
  info_fails L h ->
  Main.post_embeddings settings p s
  = ({| Main.status_code := 500;
        Main.body := Main.JsonDetail (pydantic_error L) |},
     after_call (Some h) (info_call h)
       (run_calls h (encode_calls (Models.normalize request) chunks) s1)).
Proof.
  intros Hvalid Hlen Hload Hm Hchunks Henc Hfail.
  assert (Hne : Models.texts request <> []).
  { unfold Models.EmbeddingRequest_validate in Hvalid.
    destruct (Z.leb_spec 1 (Py.len (Models.p_texts p))); [|discriminate].
    destruct (Py.len (Models.p_texts p) <=? 100); [|discriminate].
    injection Hvalid as <-. simpl. intros Hnil. rewrite Hnil in *.
    unfold Py.len in *. simpl in *. lia. }
  pose proof (generate_embeddings_returns settings _ _ _ _ s s1 h chunks
                Hne Hload Hm Hchunks Henc) as Hrun.
  set (s2 := run_calls h (encode_calls (Models.normalize request) chunks) s1) in *.
  assert (Hm2 : model s2 = Some h).
  { subst s2. destruct (run_calls_model_name h
      (encode_calls (Models.normalize request) chunks) s1) as [-> _]. exact Hm. }
  pose proof (get_model_info_degraded s2 h Hm2 Hfail) as Hinfo.
  rewrite (post_embeddings_after_inference p request _ _ _ s s2 _
             Hvalid Hlen Hrun Hinfo).
  simpl. now destruct (Rt.model_name s2).
Qed.

End SurfaceMore.

Section Routes.
Context {L : Library} (settings : Config.Settings).

Local Abbreviation limit := (Config.max_sequence_length settings).






(** X15. A resident model whose dimensionality cannot be resolved is reported in
    two ways: GET /health says [model_loaded] is true, while GET /model/info
    answers 503 "No model is currently loaded"; the model stays resident. *)
Theorem health_and_model_info_disagree (app_start_time : Z) (s : State L)
  (h : handle L) :
  model s = Some h ->
  info_fails L h ->
  Health.health_check settings app_start_time s
  = (Ok {| Health.status := "healthy";
           Health.version := Config.app_version settings;
           Health.model_loaded := true;
           Health.uptime := clock s - app_start_time |}, s) /\
  Main.get_model_info_route settings s
  = ({| Main.status_code := 503;
        Main.body := Main.JsonDetail
          "No model is currently loaded. Model will be loaded on first embedding request." |},
     after_call (Some h) (info_call h) s) /\
  model (after_call (Some h) (info_call h) s) = Some h.
Proof.
  intros Hm Hfail. split; [|split].
  - unfold Health.health_check, EmbeddingService.is_model_loaded.
    unfold_monad. now rewrite Hm.
  - unfold Main.get_model_info_route, Main.serve, Main.get_model_info,
      Main.http_guard.
    unfold try_except, bind at 1.
    now rewrite (get_model_info_degraded settings s h Hm Hfail).
  - exact Hm.
Qed.

(** X16. GET /model/info with a resident model whose dimensionality resolves:
    200, with the resident identifier, the model's own [max_seq_length] or,
    when it has none, the configured [max_sequence_length], and the
    dimensions; finding the dimensions costs one library call, an inference
    on the probe text when the model has no accessor. *)
Theorem model_info_route_reports_resident_model (s : State L) (h : handle L)
  (n : string) (k : Z) (c : Call) :
  model s = Some h ->
  Rt.model_name s = Some n ->
  info_resolves L h (Some k) c ->
  c = info_call h /\
  (max_seq_length L h = None -> reported_max_length settings h = limit) /\
  Main.get_model_info_route settings s
  = ({| Main.status_code := 200;
        Main.body := Main.JsonModelInfo
          {| Models.i_model_name := n;
             Models.i_model_type := "sentence-transformer";
             Models.i_max_sequence_length := reported_max_length settings h;
             Models.i_embedding_dimensions := k;
             Models.i_is_loaded := true |} |},
     after_call (Some h) c s).
Proof.
  intros Hm Hn Hres.
  destruct (get_model_info_resolved settings s h (Some k) c Hm Hres) as (Hc & Hinfo).
  split; [exact Hc|]. split.
  - intros Hnone. unfold reported_max_length. now rewrite Hnone.
  - unfold Main.get_model_info_route, Main.serve, Main.get_model_info,
      Main.http_guard.
    unfold try_except, bind at 1. rewrite Hinfo. simpl.
    unfold Models.make_ModelInfo, bind. simpl. now rewrite Hn.
Qed.

(** X17. POST /model/load for an identifier that is not resident and that the
    library fetches: 200, and the message names the identifier as it was
    sent, while the model is resident under the resolved identifier; for an
    empty identifier that is the configured default. *)
Theorem post_model_load_reports_sent_name (n : string) (h : handle L)
  (s : State L) :
  opt_str_eqb (Rt.model_name s) (Some (resolve settings (Some n)))
    && is_not_None (model s) = false ->
  load_succeeds L (resolve settings (Some n)) h ->
  exists s',
    Main.post_model_load settings (Some n) s
    = ({| Main.status_code := 200;
          Main.body := Main.JsonMessage
            ("Model " ++ n ++ " loaded successfully")%string |}, s') /\
    model s' = Some h /\
    Rt.model_name s' = Some (resolve settings (Some n)) /\
    (n = "" -> Rt.model_name s' = Some (Config.default_model_name settings)) /\
    (n <> "" -> Rt.model_name s' = Some n).
Proof.
  intros Hfresh Hok.
  destruct (fetch_succeeds (resolve settings (Some n)) h s Hok)
    as (s' & Hrun & Hm & Hn & _).
  rewrite <- (load_model_fetches settings (Some n) s Hfresh) in Hrun.
  exists s'. split; [|split; [exact Hm|split; [exact Hn|split]]].
  - unfold Main.post_model_load, Main.serve, Main.load_model.
    unfold try_except, bind at 1. now rewrite Hrun.
  - intros ->. exact Hn.
  - intros Hne. rewrite Hn. unfold resolve, Py.or_str.
    now destruct (String.eqb_spec n "").
Qed.

End Routes.

Lemma post_embeddings_success_witness :
  Main.post_embeddings Toy.settings (Toy.payload Toy.five None) Toy.s0
  = ({| Main.status_code := 200;
        Main.body := Main.JsonEmbeddings
          {| Models.embeddings :=
               flat_map (@encoded Toy.lib "mini" true)
                 [["a"; "bb"]; ["ccc"; "dd"]; ["e"]];
             Models.r_model_name := resolve Toy.settings None;
             Models.dimensions := 2;
             Models.processing_time :=
               @total_duration Toy.lib "mini"
                 (encode_calls true [["a"; "bb"]; ["ccc"; "dd"]; ["e"]]);
             Models.total_texts := Py.len Toy.five |} |},
     @after_call Toy.lib (Some "mini") CallGetDimension
       (@run_calls Toy.lib "mini"
          (encode_calls true [["a"; "bb"]; ["ccc"; "dd"]; ["e"]]) Toy.s_mini)).
Proof.
  apply (post_embeddings_success (L := Toy.lib) Toy.settings
           (Toy.payload Toy.five None)
           {| Models.texts := Toy.five; Models.model_name := None;
              Models.normalize := true; Models.batch_size := None |}
           Toy.s0 Toy.s_mini "mini" [["a"; "bb"]; ["ccc"; "dd"]; ["e"]] 2
           CallGetDimension).
  - reflexivity.
  - repeat constructor; vm_compute; discriminate.
  - reflexivity.
  - reflexivity.
  - reflexivity.
  - intros c [<-|[<-|[<-|[]]]]; eexists; reflexivity.
  - apply accessor_returns; reflexivity.
Defined.

Lemma unresolved_dimensions_discard_embeddings_witness :
  Main.post_embeddings Toy.settings
    {| Models.p_texts := ["a"; "bb"]; Models.p_model_name := Some "nodim";
       Models.p_normalize := None; Models.p_batch_size := None |} Toy.s0
  = ({| Main.status_code := 500;
        Main.body := Main.JsonDetail (pydantic_error Toy.lib) |},
     @after_call Toy.lib (Some "nodim") (@info_call Toy.lib "nodim")
       (@run_calls Toy.lib "nodim" (encode_calls true [["a"; "bb"]])
          Scenario.s_nodim)).
Proof.
  apply (unresolved_dimensions_discard_embeddings (L := Toy.lib) Toy.settings
           {| Models.p_texts := ["a"; "bb"]; Models.p_model_name := Some "nodim";
              Models.p_normalize := None; Models.p_batch_size := None |}
           {| Models.texts := ["a"; "bb"]; Models.model_name := Some "nodim";
              Models.normalize := true; Models.batch_size := None |}
           Toy.s0 Scenario.s_nodim "nodim" [["a"; "bb"]]).
  - reflexivity.
  - repeat constructor; vm_compute; discriminate.
  - reflexivity.
  - reflexivity.
  - reflexivity.
  - intros c [<-|[]]; eexists; reflexivity.
  - apply accessor_raises with "no dimension"; reflexivity.
Defined.

Lemma health_and_model_info_disagree_witness :
  Health.health_check Toy.settings 40 Scenario.s_nodim
  = (Ok {| Health.status := "healthy";
           Health.version := "0.1.0";
           Health.model_loaded := true;
           Health.uptime := clock Scenario.s_nodim - 40 |}, Scenario.s_nodim) /\
  Main.get_model_info_route Toy.settings Scenario.s_nodim
  = ({| Main.status_code := 503;
        Main.body := Main.JsonDetail
          "No model is currently loaded. Model will be loaded on first embedding request." |},
     @after_call Toy.lib (Some "nodim") (@info_call Toy.lib "nodim")
       Scenario.s_nodim) /\
  model (@after_call Toy.lib (Some "nodim") (@info_call Toy.lib "nodim")
           Scenario.s_nodim) = Some "nodim".
Proof.
  apply (health_and_model_info_disagree (L := Toy.lib) Toy.settings 40
           Scenario.s_nodim "nodim").
  - reflexivity.
  - apply accessor_raises with "no dimension"; reflexivity.
Defined.

Lemma model_info_route_reports_resident_model_witness :
  CallEncode ["test"] false = @info_call Toy.lib "probe" /\
  (max_seq_length Toy.lib "probe" = None ->
   @reported_max_length Toy.lib Toy.settings "probe" = 5) /\
  Main.get_model_info_route Toy.settings Scenario.s_probe
  = ({| Main.status_code := 200;
        Main.body := Main.JsonModelInfo
          {| Models.i_model_name := "probe";
             Models.i_model_type := "sentence-transformer";
             Models.i_max_sequence_length :=
               @reported_max_length Toy.lib Toy.settings "probe";
             Models.i_embedding_dimensions := Py.len [4; 0];
             Models.i_is_loaded := true |} |},
     @after_call Toy.lib (Some "probe") (CallEncode ["test"] false)
       Scenario.s_probe).
Proof.
  apply (model_info_route_reports_resident_model (L := Toy.lib) Toy.settings
           Scenario.s_probe "probe" "probe" (Py.len [4; 0])
           (CallEncode ["test"] false)).
  - reflexivity.
  - reflexivity.
  - apply (probe_returns (L := Toy.lib) "probe" [4; 0] []); reflexivity.
Defined.

Lemma post_model_load_reports_sent_name_witness :
  exists s',
    Main.post_model_load Toy.settings (Some "") Toy.s0
    = ({| Main.status_code := 200;
          Main.body := Main.JsonMessage ("Model " ++ "" ++ " loaded successfully")%string |},
       s') /\
    model s' = Some "mini" /\
    Rt.model_name s' = Some (resolve Toy.settings (Some "")) /\
    ("" = "" -> Rt.model_name s' = Some (Config.default_model_name Toy.settings)) /\
    ("" <> "" -> Rt.model_name s' = Some "").
Proof.
  apply (post_model_load_reports_sent_name (L := Toy.lib) Toy.settings "" "mini"
           Toy.s0).
  - reflexivity.
  - repeat split.
Defined.
